(** * University management system (practicalwork7.ts)

    A shallow embedding of the class [UniversityManagementSystem] and the
    properties of its ten methods.

    Modelling conventions.
    - A TypeScript [number] that holds an identity, a count, a year or a
      number of credits is an integer [Z].  The counters start at 1 and grow by
      one per created record, and a JavaScript array holds fewer than 2^32
      elements, so the counters stay far below 2^53 and [number] arithmetic on
      them is exact.
    - The quotient computed by [calculateAverageGrade] is a binary64 number,
      modelled by the rational it denotes: the sum and the count are exact
      integers and [total / length] is the double nearest their quotient,
      [nearest_double].  Equality of averages is [Qeq].
    - The argument of [enrollStudent] and of [addCourse] is spread after the
      [id] of the new record, so an [id] property of the argument itself, which
      the type [Omit<..., "id">] does not rule out (a [Student] passes), ends
      up as the id of the record; the argument records carry an optional
      [id].
    - A [Date] is its time value, an integer; [new Date()] reads a clock, which
      the model passes to [setGrade] as the argument [now].
    - A method is a function from the object's state to an outcome and a
      state.  The state is threaded through a [throw] as well, as in the
      source, where whatever was written before an exception stays written.
    - An array of objects is a list.  Every element of [students] is a fresh
      object literal pushed once, so no two positions alias, and the
      assignment [student.status = newStatus] on the object returned by [find]
      is the update of the first list element with that id. *)

From Corelib Require Import PrimFloat.
From Corelib Require FloatOps SpecFloat.
From Stdlib Require Import String Bool ZArith QArith Qminmax Qround Qabs Qpower.
From Stdlib Require Import Lia Lqa List Sorted.
Import ListNotations.
Open Scope Z_scope.

(** ** Enums *)

Inductive StudentStatus := Active | Academic_Leave | Graduated | Expelled.

Inductive CourseType := Mandatory | Optional | Special.

Inductive Semester := First | Second.

Inductive Grade := Excellent | Good | Satisfactory | Unsatisfactory.

Inductive Faculty := Computer_Science | Economics | Law | Engineering.

(** The numeric value of each enum member at run time. *)
Definition StudentStatus_value (s : StudentStatus) : Z :=
  match s with Active => 0 | Academic_Leave => 1 | Graduated => 2 | Expelled => 3 end.

Definition Semester_value (s : Semester) : Z :=
  match s with First => 0 | Second => 1 end.

Definition Grade_value (g : Grade) : Z :=
  match g with Excellent => 5 | Good => 4 | Satisfactory => 3 | Unsatisfactory => 2 end.

Definition Faculty_value (f : Faculty) : Z :=
  match f with Computer_Science => 0 | Economics => 1 | Law => 2 | Engineering => 3 end.

(** [===] on enum members compares their numeric values. *)
Definition StudentStatus_eqb (a b : StudentStatus) : bool :=
  StudentStatus_value a =? StudentStatus_value b.

Definition Semester_eqb (a b : Semester) : bool :=
  Semester_value a =? Semester_value b.

Definition Faculty_eqb (a b : Faculty) : bool :=
  Faculty_value a =? Faculty_value b.

(** ** Interfaces *)

Definition Date := Z.

Module Student.
Record t := mk {
  id : Z;
  fullName : string;
  faculty : Faculty;
  year : Z;
  status : StudentStatus;
  enrollmentDate : Date;
  groupNumber : string
}.

(** The assignment [student.status = v]. *)
Definition set_status (v : StudentStatus) (s : t) : t :=
  mk (id s) (fullName s) (faculty s) (year s) v (enrollmentDate s) (groupNumber s).
End Student.

(** [Omit<Student, "id">].  The type asks for the six fields and forbids
    nothing: [id] is the [id] property of the object passed, if it has one. *)
Module StudentData.
Record t := mk {
  id : option Z;
  fullName : string;
  faculty : Faculty;
  year : Z;
  status : StudentStatus;
  enrollmentDate : Date;
  groupNumber : string
}.
End StudentData.

Module Course.
Record t := mk {
  id : Z;
  name : string;
  type : CourseType;
  credits : Z;
  semester : Semester;
  faculty : Faculty;
  maxStudents : Z
}.
End Course.

(** [Omit<Course, "id">], with the [id] property of the object passed, if it
    has one. *)
Module CourseData.
Record t := mk {
  id : option Z;
  name : string;
  type : CourseType;
  credits : Z;
  semester : Semester;
  faculty : Faculty;
  maxStudents : Z
}.
End CourseData.

Module StudentGrade.
Record t := mk {
  studentId : Z;
  courseId : Z;
  grade : Grade;
  date : Date;
  semester : Semester
}.
End StudentGrade.

(** The element type of [courseRegistrations]. *)
Module Registration.
Record t := mk {
  studentId : Z;
  courseId : Z
}.
End Registration.

(** ** The object state *)

Record UniversityManagementSystem := mkUMS {
  students : list Student.t;
  courses : list Course.t;
  grades : list StudentGrade.t;
  courseRegistrations : list Registration.t;
  nextStudentId : Z;
  nextCourseId : Z
}.

(** The field initialisers of the class. *)
Definition new_UniversityManagementSystem : UniversityManagementSystem :=
  mkUMS [] [] [] [] 1 1.

Definition set_students (v : list Student.t) (u : UniversityManagementSystem) :=
  mkUMS v (courses u) (grades u) (courseRegistrations u) (nextStudentId u) (nextCourseId u).

Definition set_courses (v : list Course.t) (u : UniversityManagementSystem) :=
  mkUMS (students u) v (grades u) (courseRegistrations u) (nextStudentId u) (nextCourseId u).

Definition set_grades (v : list StudentGrade.t) (u : UniversityManagementSystem) :=
  mkUMS (students u) (courses u) v (courseRegistrations u) (nextStudentId u) (nextCourseId u).

Definition set_courseRegistrations (v : list Registration.t) (u : UniversityManagementSystem) :=
  mkUMS (students u) (courses u) (grades u) v (nextStudentId u) (nextCourseId u).

Definition set_nextStudentId (v : Z) (u : UniversityManagementSystem) :=
  mkUMS (students u) (courses u) (grades u) (courseRegistrations u) v (nextCourseId u).

Definition set_nextCourseId (v : Z) (u : UniversityManagementSystem) :=
  mkUMS (students u) (courses u) (grades u) (courseRegistrations u) (nextStudentId u) v.

(** ** Exceptions and the method monad *)

(** The six [throw new Error(...)] sites; [Error_message] is the text each
    carries.  The two sites of [StudentNotFound] share a message, and so do
    the two of [CourseNotFound]. *)
Inductive Error :=
| StudentNotFound
| CourseNotFound
| CourseFull
| FacultyMismatch
| NotRegistered
| ExpelledStatusChange.

Definition Error_message (e : Error) : string :=
  match e with
  | StudentNotFound => "Студента не знайдено"
  | CourseNotFound => "Курс не знайдено"
  | CourseFull => "Курс заповнений"
  | FacultyMismatch => "Факультет студента не відповідає факультету курсу"
  | NotRegistered => "Студент не зареєстрований на цей курс"
  | ExpelledStatusChange => "Не можна змінити статус відрахованого студента"
  end.

Inductive Outcome (A : Type) :=
| Returned (a : A)
| Thrown (e : Error).

Arguments Returned {A} a.
Arguments Thrown {A} e.

Definition Method (A : Type) : Type :=
  UniversityManagementSystem -> Outcome A * UniversityManagementSystem.

Definition ret {A} (a : A) : Method A := fun u => (Returned a, u).

Definition bind {A B} (m : Method A) (k : A -> Method B) : Method B :=
  fun u =>
    match m u with
    | (Returned a, u') => k a u'
    | (Thrown e, u') => (Thrown e, u')
    end.

Definition throw {A} (e : Error) : Method A := fun u => (Thrown e, u).

(** Reading from [this] and writing to it. *)
Definition read {A} (f : UniversityManagementSystem -> A) : Method A :=
  fun u => (Returned (f u), u).

Definition write (f : UniversityManagementSystem -> UniversityManagementSystem) : Method unit :=
  fun u => (Returned tt, f u).

Declare Scope method_scope.
Delimit Scope method_scope with method.

Notation "x <- m ;; k" := (bind m (fun x => k))
  (at level 61, m at next level, right associativity) : method_scope.
Notation "m ;; k" := (bind m (fun _ => k))
  (at level 61, right associativity) : method_scope.

Open Scope method_scope.

(** ** Methods that create records *)

(** [{ id: v, ...o }]: the properties of [o] are copied after [id] is set, so
    an [id] of [o] replaces [v]. *)
Definition spread_over_id (v : Z) (own : option Z) : Z :=
  match own with
  | Some id => id
  | None => v
  end.

(** In [{ id: this.nextStudentId++, ...student }] the counter is read and
    incremented, and the spread brings the six fields and the argument's own
    [id] if it has one. *)
Definition enrollStudent (student : StudentData.t) : Method Student.t :=
  id <- read nextStudentId ;;
  write (fun u => set_nextStudentId (nextStudentId u + 1) u) ;;
  let newStudent :=
    Student.mk (spread_over_id id (StudentData.id student))
      (StudentData.fullName student) (StudentData.faculty student)
      (StudentData.year student) (StudentData.status student)
      (StudentData.enrollmentDate student) (StudentData.groupNumber student) in
  write (fun u => set_students (students u ++ [newStudent]) u) ;;
  ret newStudent.

Definition addCourse (course : CourseData.t) : Method Course.t :=
  id <- read nextCourseId ;;
  write (fun u => set_nextCourseId (nextCourseId u + 1) u) ;;
  let newCourse :=
    Course.mk (spread_over_id id (CourseData.id course))
      (CourseData.name course) (CourseData.type course)
      (CourseData.credits course) (CourseData.semester course)
      (CourseData.faculty course) (CourseData.maxStudents course) in
  write (fun u => set_courses (courses u ++ [newCourse]) u) ;;
  ret newCourse.

(** ** Methods that check and then write *)

Definition registerForCourse (studentId courseId : Z) : Method unit :=
  student <- read (fun u => find (fun s => Student.id s =? studentId) (students u)) ;;
  course <- read (fun u => find (fun c => Course.id c =? courseId) (courses u)) ;;
  match student with
  | None => throw StudentNotFound
  | Some student =>
    match course with
    | None => throw CourseNotFound
    | Some course =>
      registrationsForCourse <-
        read (fun u => filter (fun reg => Registration.courseId reg =? courseId)
                         (courseRegistrations u)) ;;
      if Z.of_nat (length registrationsForCourse) >=? Course.maxStudents course
      then throw CourseFull
      else if negb (Faculty_eqb (Student.faculty student) (Course.faculty course))
      then throw FacultyMismatch
      else write (fun u =>
             set_courseRegistrations
               (courseRegistrations u ++ [Registration.mk studentId courseId]) u)
    end
  end.

Definition setGrade (studentId courseId : Z) (grade : Grade) (now : Date) : Method unit :=
  isRegistered <-
    read (fun u => existsb (fun reg => (Registration.studentId reg =? studentId)
                                       && (Registration.courseId reg =? courseId))
                     (courseRegistrations u)) ;;
  if negb isRegistered then throw NotRegistered
  else
    course <- read (fun u => find (fun c => Course.id c =? courseId) (courses u)) ;;
    match course with
    | None => throw CourseNotFound
    | Some course =>
      let newGrade :=
        StudentGrade.mk studentId courseId grade now (Course.semester course) in
      write (fun u => set_grades (grades u ++ [newGrade]) u)
    end.

(** [student.status = newStatus] where [student] is the object that
    [students.find(s => s.id === studentId)] returned: the first element with
    that id is the one written. *)
Fixpoint assign_status (studentId : Z) (newStatus : StudentStatus)
    (l : list Student.t) : list Student.t :=
  match l with
  | [] => []
  | s :: l' =>
    if Student.id s =? studentId
    then Student.set_status newStatus s :: l'
    else s :: assign_status studentId newStatus l'
  end.

Definition updateStudentStatus (studentId : Z) (newStatus : StudentStatus) : Method unit :=
  student <- read (fun u => find (fun s => Student.id s =? studentId) (students u)) ;;
  match student with
  | None => throw StudentNotFound
  | Some student =>
    if StudentStatus_eqb (Student.status student) Expelled
       && negb (StudentStatus_eqb newStatus Expelled)
    then throw ExpelledStatusChange
    else write (fun u => set_students (assign_status studentId newStatus (students u)) u)
  end.

(** ** Queries

    The five query methods read [this] and write nothing; each is a function
    of the state. *)

Definition getStudentsByFaculty (u : UniversityManagementSystem) (faculty : Faculty)
    : list Student.t :=
  filter (fun s => Faculty_eqb (Student.faculty s) faculty) (students u).

Definition getStudentGrades (u : UniversityManagementSystem) (studentId : Z)
    : list StudentGrade.t :=
  filter (fun g => StudentGrade.studentId g =? studentId) (grades u).

Definition getAvailableCourses (u : UniversityManagementSystem) (faculty : Faculty)
    (semester : Semester) : list Course.t :=
  filter (fun c => Faculty_eqb (Course.faculty c) faculty
                   && Semester_eqb (Course.semester c) semester) (courses u).

(** *** Division of numbers

    A [number] is a binary64 floating-point number; a finite one is modelled
    by the rational it denotes.  The operands of the one division of the
    program are integers that a double holds exactly (a sum of grade values
    and a length), and the division returns the double nearest the exact
    quotient, ties going to the even significand.  [nearest_double] is that
    rounding for magnitudes from 2^-1022 to below 2^1024, where a double has
    53 significant bits; every quotient of the program lies between 2 and
    5. *)

(** The nearest integer, the even one of two equally near. *)
Definition round_half_even (x : Q) : Z :=
  let f := Qfloor x in
  match Qcompare (x - inject_Z f) (1 # 2) with
  | Lt => f
  | Gt => f + 1
  | Eq => if Z.even f then f else f + 1
  end.

(** The [k] with [2^k <= x < 2^(k+1)], for a positive [x]. *)
Definition floor_log2 (x : Q) : Z :=
  if Qle_bool 1 x then Z.log2 (Qfloor x) else - Z.log2_up (Qceiling (/ x)).

(** A positive [x] is rounded to a multiple of [2^e] that has 53 bits. *)
Definition nearest_double_pos (x : Q) : Q :=
  let e := floor_log2 x - 52 in
  Qred (inject_Z (round_half_even (x / 2 ^ e)) * 2 ^ e).

Definition nearest_double (x : Q) : Q :=
  match Qcompare x 0 with
  | Eq => 0%Q
  | Gt => nearest_double_pos x
  | Lt => (- nearest_double_pos (- x))%Q
  end.

(** 2^51 and 2^50: between 2 and 4 the doubles are the multiples of 2^-51,
    between 4 and 8 those of 2^-50. *)
Definition two51 : positive := 2251799813685248.

Definition two50 : positive := 1125899906842624.

(** [a / b] for two numbers that hold the integers [a] and [b <> 0]. *)
Definition number_div (a b : Z) : Q :=
  nearest_double (inject_Z a / inject_Z b).

(** The rational a finite machine float denotes, to compare [number_div]
    with the division of the machine. *)
Definition float_value (f : float) : option Q :=
  match FloatOps.Prim2SF f with
  | SpecFloat.S754_zero _ => Some 0%Q
  | SpecFloat.S754_finite s m e =>
      Some (Qred ((if s then - (1) else 1) * inject_Z (Zpos m) * 2 ^ e))%Q
  | _ => None
  end.

Definition calculateAverageGrade (u : UniversityManagementSystem) (studentId : Z) : Q :=
  let studentGrades := getStudentGrades u studentId in
  if (length studentGrades =? 0)%nat then 0%Q
  else
    let total :=
      fold_left (fun sum g => sum + Grade_value (StudentGrade.grade g)) studentGrades 0 in
    number_div total (Z.of_nat (length studentGrades)).

(** [Math.max(...xs)]; [None] stands for the [-Infinity] of an empty argument
    list. *)
Definition Math_max (xs : list Q) : option Q :=
  fold_left (fun acc x =>
               match acc with
               | None => Some x
               | Some m => Some (if Qle_bool m x then x else m)
               end) xs None.

(** [a === top] for a finite [a]. *)
Definition equals_top (a : Q) (top : option Q) : bool :=
  match top with
  | None => false
  | Some m => Qeq_bool a m
  end.

(** [a > b] *)
Definition Qgtb (a b : Q) : bool := negb (Qle_bool a b).

Module StudentAverage.
Record t := mk {
  student : Student.t;
  averageGrade : Q
}.
End StudentAverage.

Definition getTopStudents (u : UniversityManagementSystem) (faculty : Faculty)
    : list Student.t :=
  let studentsInFaculty := getStudentsByFaculty u faculty in
  let studentAverages :=
    map (fun student =>
           StudentAverage.mk student (calculateAverageGrade u (Student.id student)))
        studentsInFaculty in
  let topAverage := Math_max (map StudentAverage.averageGrade studentAverages) in
  map StudentAverage.student
    (filter (fun sa => equals_top (StudentAverage.averageGrade sa) topAverage
                       && Qgtb (StudentAverage.averageGrade sa) 0)
            studentAverages).

(** ** Sequences of calls

    A caller holds one object and calls its methods one after another; a call
    that throws leaves the object as the throw found it and the caller goes
    on with the next call. *)

Inductive Value :=
| VVoid
| VStudent (s : Student.t)
| VCourse (c : Course.t)
| VStudents (l : list Student.t)
| VGrades (l : list StudentGrade.t)
| VCourses (l : list Course.t)
| VNumber (q : Q).

Inductive Call :=
| EnrollStudent (student : StudentData.t)
| AddCourse (course : CourseData.t)
| RegisterForCourse (studentId courseId : Z)
| SetGrade (studentId courseId : Z) (grade : Grade) (now : Date)
| UpdateStudentStatus (studentId : Z) (newStatus : StudentStatus)
| GetStudentsByFaculty (faculty : Faculty)
| GetStudentGrades (studentId : Z)
| GetAvailableCourses (faculty : Faculty) (semester : Semester)
| CalculateAverageGrade (studentId : Z)
| GetTopStudents (faculty : Faculty).

Definition call (c : Call) : Method Value :=
  match c with
  | EnrollStudent student => s <- enrollStudent student ;; ret (VStudent s)
  | AddCourse course => c <- addCourse course ;; ret (VCourse c)
  | RegisterForCourse studentId courseId =>
      registerForCourse studentId courseId ;; ret VVoid
  | SetGrade studentId courseId grade now =>
      setGrade studentId courseId grade now ;; ret VVoid
  | UpdateStudentStatus studentId newStatus =>
      updateStudentStatus studentId newStatus ;; ret VVoid
  | GetStudentsByFaculty faculty =>
      read (fun u => VStudents (getStudentsByFaculty u faculty))
  | GetStudentGrades studentId =>
      read (fun u => VGrades (getStudentGrades u studentId))
  | GetAvailableCourses faculty semester =>
      read (fun u => VCourses (getAvailableCourses u faculty semester))
  | CalculateAverageGrade studentId =>
      read (fun u => VNumber (calculateAverageGrade u studentId))
  | GetTopStudents faculty =>
      read (fun u => VStudents (getTopStudents u faculty))
  end.

Fixpoint run (cs : list Call) (u : UniversityManagementSystem)
    : list (Outcome Value) * UniversityManagementSystem :=
  match cs with
  | [] => ([], u)
  | c :: cs' =>
    let (r, u') := call c u in
    let (rs, u'') := run cs' u' in
    (r :: rs, u'')
  end.

(** The state after a sequence of calls, and what the calls returned. *)
Definition state_after (cs : list Call) (u : UniversityManagementSystem) :=
  snd (run cs u).

Definition results_of (cs : list Call) (u : UniversityManagementSystem) :=
  fst (run cs u).

(** ** Vocabulary of the specification *)

(** The record an id denotes: the one [find] returns. *)
Definition the_student (u : UniversityManagementSystem) (studentId : Z) : option Student.t :=
  find (fun s => Student.id s =? studentId) (students u).

Definition the_course (u : UniversityManagementSystem) (courseId : Z) : option Course.t :=
  find (fun c => Course.id c =? courseId) (courses u).

Definition student_exists (u : UniversityManagementSystem) (studentId : Z) : Prop :=
  exists s, In s (students u) /\ Student.id s = studentId.

Definition course_exists (u : UniversityManagementSystem) (courseId : Z) : Prop :=
  exists c, In c (courses u) /\ Course.id c = courseId.

(** A Registration exists for exactly the pair. *)
Definition registered (u : UniversityManagementSystem) (studentId courseId : Z) : Prop :=
  In (Registration.mk studentId courseId) (courseRegistrations u).

(** The number of registrations of a course. *)
Fixpoint count_for_course (courseId : Z) (l : list Registration.t) : Z :=
  match l with
  | [] => 0
  | reg :: l' =>
    (if Registration.courseId reg =? courseId then 1 else 0) + count_for_course courseId l'
  end.

Definition registration_count (u : UniversityManagementSystem) (courseId : Z) : Z :=
  count_for_course courseId (courseRegistrations u).

(** The number of registrations of a pair. *)
Fixpoint count_pair (studentId courseId : Z) (l : list Registration.t) : nat :=
  match l with
  | [] => 0%nat
  | reg :: l' =>
    if (Registration.studentId reg =? studentId) && (Registration.courseId reg =? courseId)
    then S (count_pair studentId courseId l')
    else count_pair studentId courseId l'
  end.

(** The state a successful [registerForCourse] leaves. *)
Definition with_registration (u : UniversityManagementSystem) (studentId courseId : Z) :=
  set_courseRegistrations
    (courseRegistrations u ++ [Registration.mk studentId courseId]) u.

(** The state a successful [setGrade] leaves. *)
Definition with_grade (u : UniversityManagementSystem) (g : StudentGrade.t) :=
  set_grades (grades u ++ [g]) u.

(** The ids that [enrollStudent] and [addCourse] handed out in a list of
    results, in the order of the calls. *)
Fixpoint assigned_student_ids (rs : list (Outcome Value)) : list Z :=
  match rs with
  | [] => []
  | Returned (VStudent s) :: rs' => Student.id s :: assigned_student_ids rs'
  | _ :: rs' => assigned_student_ids rs'
  end.

Fixpoint assigned_course_ids (rs : list (Outcome Value)) : list Z :=
  match rs with
  | [] => []
  | Returned (VCourse c) :: rs' => Course.id c :: assigned_course_ids rs'
  | _ :: rs' => assigned_course_ids rs'
  end.

(** [first, first + 1, ..., first + n - 1] *)
Fixpoint count_up (first : Z) (n : nat) : list Z :=
  match n with
  | O => []
  | S n' => first :: count_up (first + 1) n'
  end.

(** Referential integrity of the registrations and of the grades. *)
Definition registrations_refer (u : UniversityManagementSystem) : Prop :=
  forall reg, In reg (courseRegistrations u) ->
    student_exists u (Registration.studentId reg) /\
    course_exists u (Registration.courseId reg).

Definition grades_refer (u : UniversityManagementSystem) : Prop :=
  forall g, In g (grades u) ->
    registered u (StudentGrade.studentId g) (StudentGrade.courseId g).

Definition referential_integrity (u : UniversityManagementSystem) : Prop :=
  registrations_refer u /\ grades_refer u.

(** The sum of the grade values of a list of grade records. *)
Fixpoint grade_sum (l : list StudentGrade.t) : Z :=
  match l with
  | [] => 0
  | g :: l' => Grade_value (StudentGrade.grade g) + grade_sum l'
  end.

(** The top students in the words of the specification: the students of the
    faculty whose average is the largest of the faculty and is positive. *)
Definition is_top_student (u : UniversityManagementSystem) (faculty : Faculty)
    (s : Student.t) : Prop :=
  In s (students u) /\ Student.faculty s = faculty /\
  (0 < calculateAverageGrade u (Student.id s))%Q /\
  forall s', In s' (students u) -> Student.faculty s' = faculty ->
    (calculateAverageGrade u (Student.id s') <= calculateAverageGrade u (Student.id s))%Q.

Definition is_top_studentb (u : UniversityManagementSystem) (faculty : Faculty)
    (s : Student.t) : bool :=
  forallb (fun s' => Qle_bool (calculateAverageGrade u (Student.id s'))
                              (calculateAverageGrade u (Student.id s)))
          (getStudentsByFaculty u faculty)
  && Qgtb (calculateAverageGrade u (Student.id s)) 0.

Definition top_students_spec (u : UniversityManagementSystem) (faculty : Faculty)
    : list Student.t :=
  filter (is_top_studentb u faculty) (getStudentsByFaculty u faculty).

(** Two student records that differ in nothing but the status. *)
Definition same_but_status (s s' : Student.t) : Prop :=
  Student.id s' = Student.id s /\
  Student.fullName s' = Student.fullName s /\
  Student.faculty s' = Student.faculty s /\
  Student.year s' = Student.year s /\
  Student.enrollmentDate s' = Student.enrollmentDate s /\
  Student.groupNumber s' = Student.groupNumber s.

(** Every student record of [u] is still at its position in [w], with
    nothing but the status possibly different, and with the status
    [Expelled] if it had it in [u]. *)
Definition students_kept (u w : UniversityManagementSystem) : Prop :=
  forall k s, nth_error (students u) k = Some s ->
    exists s', nth_error (students w) k = Some s' /\
               same_but_status s s' /\
               (Student.status s = Expelled -> Student.status s' = Expelled).

(** ** The run of the demonstration driver and other sample states *)

Definition course1_data : CourseData.t :=
  CourseData.mk None "Програмування" Mandatory 5 First Computer_Science 30.

Definition student1_data : StudentData.t :=
  StudentData.mk None "Іван Іванов" Computer_Science 1 Active 1700000000000 "CS-101".

(** After [addCourse] and [enrollStudent]. *)
Definition ums_seeded : UniversityManagementSystem :=
  state_after [AddCourse course1_data; EnrollStudent student1_data]
    new_UniversityManagementSystem.

(** After the registration as well. *)
Definition ums_registered : UniversityManagementSystem :=
  state_after [RegisterForCourse 1 1] ums_seeded.

(** After the whole driver. *)
Definition ums_graded : UniversityManagementSystem :=
  state_after [SetGrade 1 1 Excellent 1700000000001] ums_registered.

(** A course for one student only, a student of its faculty, one registration. *)
Definition small_course_data : CourseData.t :=
  CourseData.mk None "Seminar" Optional 2 First Computer_Science 1.

Definition ums_small_full : UniversityManagementSystem :=
  state_after [AddCourse small_course_data; EnrollStudent student1_data;
               RegisterForCourse 1 1]
    new_UniversityManagementSystem.

(** The records the driver's two creating calls return. *)
Definition course1 : Course.t :=
  Course.mk 1 "Програмування" Mandatory 5 First Computer_Science 30.

Definition student1 : Student.t :=
  Student.mk 1 "Іван Іванов" Computer_Science 1 Active 1700000000000 "CS-101".

(** Two students of one faculty in one course, both graded [Excellent]. *)
Definition student2_data : StudentData.t :=
  StudentData.mk None "Петро Петренко" Computer_Science 1 Active 1700000000000 "CS-101".

Definition student2 : Student.t :=
  Student.mk 2 "Петро Петренко" Computer_Science 1 Active 1700000000000 "CS-101".

Definition ums_tie : UniversityManagementSystem :=
  state_after [AddCourse course1_data; EnrollStudent student1_data;
               EnrollStudent student2_data;
               RegisterForCourse 1 1; RegisterForCourse 2 1;
               SetGrade 1 1 Excellent 1700000000001;
               SetGrade 2 1 Excellent 1700000000002]
    new_UniversityManagementSystem.

(** ** The steps of the state

    What one call can do to the state, whichever call it is: nothing (a query
    or a call that throws), or one of five writes, each with what the method
    has checked before it writes.  A step is [plain] when a record it creates
    gets the counter's value as its id, as it does when the argument of the
    creating method has no [id] of its own. *)

Inductive step (plain : bool) (u : UniversityManagementSystem)
    : UniversityManagementSystem -> Prop :=
| t_unchanged : step plain u u
| t_enrollStudent (s : Student.t) :
    (plain = true -> Student.id s = nextStudentId u) ->
    step plain u
      (mkUMS (students u ++ [s]) (courses u) (grades u) (courseRegistrations u)
         (nextStudentId u + 1) (nextCourseId u))
| t_addCourse (c : Course.t) :
    (plain = true -> Course.id c = nextCourseId u) ->
    step plain u
      (mkUMS (students u) (courses u ++ [c]) (grades u) (courseRegistrations u)
         (nextStudentId u) (nextCourseId u + 1))
| t_registerForCourse (studentId courseId : Z) (s : Student.t) (c : Course.t) :
    the_student u studentId = Some s ->
    the_course u courseId = Some c ->
    registration_count u courseId < Course.maxStudents c ->
    Student.faculty s = Course.faculty c ->
    step plain u (with_registration u studentId courseId)
| t_setGrade (studentId courseId : Z) (grade : Grade) (now : Date) (c : Course.t) :
    registered u studentId courseId ->
    the_course u courseId = Some c ->
    step plain u
      (with_grade u (StudentGrade.mk studentId courseId grade now (Course.semester c)))
| t_updateStudentStatus (studentId : Z) (newStatus : StudentStatus) (s : Student.t) :
    the_student u studentId = Some s ->
    (Student.status s = Expelled -> newStatus = Expelled) ->
    step plain u (set_students (assign_status studentId newStatus (students u)) u).

(** The steps of the calls, whatever their arguments. *)
Definition transition : UniversityManagementSystem -> UniversityManagementSystem -> Prop :=
  step false.

(** A call whose argument, if it creates a record, has no [id] of its own. *)
Definition plain_call (c : Call) : Prop :=
  match c with
  | EnrollStudent student => StudentData.id student = None
  | AddCourse course => CourseData.id course = None
  | _ => True
  end.

(** A [Student] passed where [Omit<Student, "id">] is asked for, and a
    [Course] likewise: the six fields and the [id]. *)
Definition student_as_argument (s : Student.t) : StudentData.t :=
  StudentData.mk (Some (Student.id s)) (Student.fullName s) (Student.faculty s)
    (Student.year s) (Student.status s) (Student.enrollmentDate s)
    (Student.groupNumber s).

Definition course_as_argument (c : Course.t) : CourseData.t :=
  CourseData.mk (Some (Course.id c)) (Course.name c) (Course.type c)
    (Course.credits c) (Course.semester c) (Course.faculty c)
    (Course.maxStudents c).

(** One student with the grades 5, 4 and 4. *)
Definition ums_three_grades : UniversityManagementSystem :=
  state_after [SetGrade 1 1 Good 1700000000002; SetGrade 1 1 Good 1700000000003]
    ums_graded.

(** ** Consistency of the state

    What the checks of the methods keep true of the state of an object that
    started new. *)

(** Each counter is one more than the number of records stored. *)
Definition counters_count (u : UniversityManagementSystem) : Prop :=
  nextStudentId u = 1 + Z.of_nat (length (students u)) /\
  nextCourseId u = 1 + Z.of_nat (length (courses u)).

(** The student and the course that the ids of a registration denote exist
    and are of one faculty. *)
Definition registrations_match_faculty (u : UniversityManagementSystem) : Prop :=
  forall reg, In reg (courseRegistrations u) ->
    exists s c,
      the_student u (Registration.studentId reg) = Some s /\
      the_course u (Registration.courseId reg) = Some c /\
      Student.faculty s = Course.faculty c.

(** The course that the id of a grade record denotes exists and the record
    carries its semester. *)
Definition grades_carry_semester (u : UniversityManagementSystem) : Prop :=
  forall g, In g (grades u) ->
    exists c,
      the_course u (StudentGrade.courseId g) = Some c /\
      StudentGrade.semester g = Course.semester c.

(** The registrations of a course id are no more than the places of the
    course the id denotes, and none when it denotes no course. *)
Definition within_capacity (u : UniversityManagementSystem) : Prop :=
  forall courseId,
    match the_course u courseId with
    | Some c => registration_count u courseId <= Z.max 0 (Course.maxStudents c)
    | None => registration_count u courseId = 0
    end.

Definition consistent (u : UniversityManagementSystem) : Prop :=
  counters_count u /\ registrations_match_faculty u /\
  grades_carry_semester u /\ within_capacity u.

(** The ids of the stored students are 1, 2, ... in the order of the list;
    likewise the ids of the stored courses. *)
Definition student_ids_consecutive (u : UniversityManagementSystem) : Prop :=
  map Student.id (students u) = count_up 1 (length (students u)).

Definition course_ids_consecutive (u : UniversityManagementSystem) : Prop :=
  map Course.id (courses u) = count_up 1 (length (courses u)).

(** ** The driver

    The statements at the end of the file with their data left open: add a
    course, enroll a student, register the student for the course with the
    two ids returned, grade the pair, and compute the student's average,
    which the driver logs beside the student's name. *)
Definition enroll_register_grade (course : CourseData.t) (student : StudentData.t)
    (grade : Grade) (now : Date) : Method (Student.t * Q) :=
  course1 <- addCourse course ;;
  student1 <- enrollStudent student ;;
  registerForCourse (Student.id student1) (Course.id course1) ;;
  setGrade (Student.id student1) (Course.id course1) grade now ;;
  average <- read (fun u => calculateAverageGrade u (Student.id student1)) ;;
  ret (student1, average).

(** The driver itself; [t0] and [t1] are what the clock shows at its two
    [new Date()]. *)
Definition driver (t0 t1 : Date) : Method (Student.t * Q) :=
  enroll_register_grade course1_data
    (StudentData.mk None "Іван Іванов" Computer_Science 1 Active t0 "CS-101")
    Excellent t1.

(** * Properties *)

(** ** Enum equality *)

Lemma Faculty_eqb_eq (a b : Faculty) : Faculty_eqb a b = true <-> a = b.
Proof. destruct a, b; unfold Faculty_eqb; simpl; split; congruence. Qed.

Lemma Faculty_eqb_neq (a b : Faculty) : Faculty_eqb a b = false <-> a <> b.
Proof. destruct a, b; unfold Faculty_eqb; simpl; split; congruence. Qed.

Lemma StudentStatus_eqb_eq (a b : StudentStatus) : StudentStatus_eqb a b = true <-> a = b.
Proof. destruct a, b; unfold StudentStatus_eqb; simpl; split; congruence. Qed.

(** ** Lookups *)

Lemma find_none_iff {A} (p : A -> bool) (l : list A) :
  find p l = None <-> forall x, In x l -> p x = false.
Proof.
  split; [apply find_none|].
  induction l as [|a l IH]; simpl; intros H; [reflexivity|].
  rewrite (H a (or_introl eq_refl)). apply IH. intros x Hx. apply H. now right.
Qed.

Lemma the_student_none (u : UniversityManagementSystem) (studentId : Z) :
  the_student u studentId = None <-> ~ student_exists u studentId.
Proof.
  unfold the_student, student_exists. rewrite find_none_iff. split.
  - intros H (s & Hin & Hid). apply H in Hin. lia.
  - intros H s Hin. apply Z.eqb_neq. intros Hid. apply H. now exists s.
Qed.

Lemma the_student_some (u : UniversityManagementSystem) (studentId : Z) (s : Student.t) :
  the_student u studentId = Some s -> In s (students u) /\ Student.id s = studentId.
Proof.
  unfold the_student. intros H. apply find_some in H. destruct H as [Hin Hid].
  split; [assumption|lia].
Qed.

Lemma the_course_none (u : UniversityManagementSystem) (courseId : Z) :
  the_course u courseId = None <-> ~ course_exists u courseId.
Proof.
  unfold the_course, course_exists. rewrite find_none_iff. split.
  - intros H (c & Hin & Hid). apply H in Hin. lia.
  - intros H c Hin. apply Z.eqb_neq. intros Hid. apply H. now exists c.
Qed.

Lemma the_course_some (u : UniversityManagementSystem) (courseId : Z) (c : Course.t) :
  the_course u courseId = Some c -> In c (courses u) /\ Course.id c = courseId.
Proof.
  unfold the_course. intros H. apply find_some in H. destruct H as [Hin Hid].
  split; [assumption|lia].
Qed.

Lemma student_exists_found (u : UniversityManagementSystem) (studentId : Z) :
  student_exists u studentId -> exists s, the_student u studentId = Some s.
Proof.
  intros H. destruct (the_student u studentId) as [s|] eqn:E; [now exists s|].
  apply the_student_none in E. contradiction.
Qed.

Lemma course_exists_found (u : UniversityManagementSystem) (courseId : Z) :
  course_exists u courseId -> exists c, the_course u courseId = Some c.
Proof.
  intros H. destruct (the_course u courseId) as [c|] eqn:E; [now exists c|].
  apply the_course_none in E. contradiction.
Qed.

Lemma count_for_course_filter (courseId : Z) (l : list Registration.t) :
  Z.of_nat (length (filter (fun reg => Registration.courseId reg =? courseId) l))
  = count_for_course courseId l.
Proof.
  induction l as [|reg l IH]; simpl; [reflexivity|].
  destruct (Registration.courseId reg =? courseId); simpl length; lia.
Qed.

Lemma registered_existsb (u : UniversityManagementSystem) (studentId courseId : Z) :
  existsb (fun reg => (Registration.studentId reg =? studentId)
                      && (Registration.courseId reg =? courseId))
          (courseRegistrations u) = true
  <-> registered u studentId courseId.
Proof.
  unfold registered. rewrite existsb_exists. split.
  - intros ([sid cid] & Hin & H). simpl in H.
    apply andb_true_iff in H. destruct H as [H1 H2].
    apply Z.eqb_eq in H1, H2. now subst.
  - intros H. exists (Registration.mk studentId courseId). split; [assumption|].
    simpl. now rewrite !Z.eqb_refl.
Qed.

(** ** What each checking method computes *)

Lemma registerForCourse_eq (u : UniversityManagementSystem) (studentId courseId : Z) :
  registerForCourse studentId courseId u =
  match the_student u studentId, the_course u courseId with
  | None, _ => (Thrown StudentNotFound, u)
  | Some _, None => (Thrown CourseNotFound, u)
  | Some s, Some c =>
    if registration_count u courseId >=? Course.maxStudents c
    then (Thrown CourseFull, u)
    else if Faculty_eqb (Student.faculty s) (Course.faculty c)
    then (Returned tt, with_registration u studentId courseId)
    else (Thrown FacultyMismatch, u)
  end.
Proof.
  unfold registerForCourse, the_student, the_course, registration_count, bind, read,
    throw, write, with_registration.
  destruct (find _ (students u)) as [s|]; [|reflexivity].
  destruct (find _ (courses u)) as [c|]; [|reflexivity].
  rewrite count_for_course_filter.
  destruct (_ >=? _); [reflexivity|].
  destruct (Faculty_eqb _ _); reflexivity.
Qed.

Lemma setGrade_eq (u : UniversityManagementSystem) (studentId courseId : Z)
    (grade : Grade) (now : Date) :
  setGrade studentId courseId grade now u =
  if existsb (fun reg => (Registration.studentId reg =? studentId)
                         && (Registration.courseId reg =? courseId))
             (courseRegistrations u)
  then match the_course u courseId with
       | None => (Thrown CourseNotFound, u)
       | Some c =>
         (Returned tt,
          with_grade u (StudentGrade.mk studentId courseId grade now (Course.semester c)))
       end
  else (Thrown NotRegistered, u).
Proof.
  unfold setGrade, the_course, bind, read, throw, write, with_grade.
  destruct (existsb _ _); [|reflexivity]. simpl.
  destruct (find _ (courses u)); reflexivity.
Qed.

Lemma updateStudentStatus_eq (u : UniversityManagementSystem) (studentId : Z)
    (newStatus : StudentStatus) :
  updateStudentStatus studentId newStatus u =
  match the_student u studentId with
  | None => (Thrown StudentNotFound, u)
  | Some s =>
    if StudentStatus_eqb (Student.status s) Expelled
       && negb (StudentStatus_eqb newStatus Expelled)
    then (Thrown ExpelledStatusChange, u)
    else (Returned tt, set_students (assign_status studentId newStatus (students u)) u)
  end.
Proof.
  unfold updateStudentStatus, the_student, bind, read, throw, write.
  destruct (find _ (students u)) as [s|]; [|reflexivity].
  destruct (_ && _); reflexivity.
Qed.

(** ** registerForCourse *)

Lemma count_for_course_app (courseId : Z) (l l' : list Registration.t) :
  count_for_course courseId (l ++ l') = count_for_course courseId l + count_for_course courseId l'.
Proof. induction l as [|reg l IH]; simpl; lia. Qed.

Lemma registration_count_with_registration (u : UniversityManagementSystem)
    (studentId courseId : Z) :
  registration_count (with_registration u studentId courseId) courseId
  = registration_count u courseId + 1.
Proof.
  unfold registration_count, with_registration. simpl.
  rewrite count_for_course_app. simpl. rewrite Z.eqb_refl. lia.
Qed.

Lemma call_RegisterForCourse (u : UniversityManagementSystem) (studentId courseId : Z) :
  call (RegisterForCourse studentId courseId) u =
  match registerForCourse studentId courseId u with
  | (Returned _, u') => (Returned VVoid, u')
  | (Thrown e, u') => (Thrown e, u')
  end.
Proof. reflexivity. Qed.

Lemma registerForCourse_accepts (u : UniversityManagementSystem) (studentId courseId : Z)
    (s : Student.t) (c : Course.t) :
  the_student u studentId = Some s -> the_course u courseId = Some c ->
  registration_count u courseId < Course.maxStudents c ->
  Student.faculty s = Course.faculty c ->
  registerForCourse studentId courseId u
  = (Returned tt, with_registration u studentId courseId).
Proof.
  intros Hs Hc Hn Hf. rewrite registerForCourse_eq, Hs, Hc.
  destruct (Z.geb_spec (registration_count u courseId) (Course.maxStudents c)); [lia|].
  apply Faculty_eqb_eq in Hf. now rewrite Hf.
Qed.

Lemma registerForCourse_full (u : UniversityManagementSystem) (studentId courseId : Z)
    (s : Student.t) (c : Course.t) :
  the_student u studentId = Some s -> the_course u courseId = Some c ->
  Course.maxStudents c <= registration_count u courseId ->
  registerForCourse studentId courseId u = (Thrown CourseFull, u).
Proof.
  intros Hs Hc Hn. rewrite registerForCourse_eq, Hs, Hc.
  destruct (Z.geb_spec (registration_count u courseId) (Course.maxStudents c)); [reflexivity|lia].
Qed.

(** Calling [registerForCourse] [n] times in a row for a course that has [k]
    of its [m] places taken: the first [m - k] calls return and the others
    throw. *)
Lemma repeated_registration (studentId courseId : Z) (s : Student.t) (c : Course.t)
    (m : nat) :
  Course.maxStudents c = Z.of_nat m ->
  Student.faculty s = Course.faculty c ->
  forall (n k : nat) (u : UniversityManagementSystem),
    the_student u studentId = Some s -> the_course u courseId = Some c ->
    registration_count u courseId = Z.of_nat k -> (k <= m)%nat ->
    results_of (repeat (RegisterForCourse studentId courseId) n) u
    = repeat (Returned VVoid) (Nat.min n (m - k))
      ++ repeat (Thrown CourseFull) (n - (m - k)).
Proof.
  intros Hm Hf. unfold results_of.
  induction n as [|n IH]; intros k u Hs Hc Hk Hle; [reflexivity|].
  cbn [repeat run fst]. rewrite call_RegisterForCourse.
  destruct (Nat.eq_dec k m) as [->|Hne].
  - rewrite (registerForCourse_full u _ _ s c Hs Hc) by lia.
    specialize (IH m u Hs Hc Hk Hle).
    destruct (run _ u) as [rs u'']. cbn [fst] in *. rewrite IH.
    replace (m - m)%nat with 0%nat by lia.
    rewrite !Nat.min_0_r, !Nat.sub_0_r. reflexivity.
  - rewrite (registerForCourse_accepts u _ _ s c Hs Hc) by lia || assumption.
    specialize (IH (S k) (with_registration u studentId courseId) Hs Hc).
    rewrite registration_count_with_registration in IH.
    specialize (IH ltac:(lia) ltac:(lia)).
    destruct (run _ (with_registration _ _ _)) as [rs u'']. cbn [fst] in *. rewrite IH.
    replace (Nat.min (S n) (m - k)) with (S (Nat.min n (m - S k))) by lia.
    replace (S n - (m - k))%nat with (n - (m - S k))%nat by lia.
    reflexivity.
Qed.

(** C1: [registerForCourse] checks in this order: no student with the id,
    [StudentNotFound]; else no course with the id, [CourseNotFound]; else the
    registrations of the course are not fewer than its [maxStudents],
    [CourseFull]; else the faculties differ, [FacultyMismatch]; else it returns
    and one registration of the pair is appended.  A failing call leaves the
    state as it was.  For a course with [m] places and none taken, the first
    [m] of [n] calls return and the later ones throw [CourseFull]. *)
Theorem registerForCourse_checks_in_order
    (u : UniversityManagementSystem) (studentId courseId : Z) :
  (~ student_exists u studentId ->
   registerForCourse studentId courseId u = (Thrown StudentNotFound, u)) /\
  (student_exists u studentId -> ~ course_exists u courseId ->
   registerForCourse studentId courseId u = (Thrown CourseNotFound, u)) /\
  (forall s c,
     the_student u studentId = Some s -> the_course u courseId = Some c ->
     (~ registration_count u courseId < Course.maxStudents c ->
      registerForCourse studentId courseId u = (Thrown CourseFull, u)) /\
     (registration_count u courseId < Course.maxStudents c ->
      Student.faculty s <> Course.faculty c ->
      registerForCourse studentId courseId u = (Thrown FacultyMismatch, u)) /\
     (registration_count u courseId < Course.maxStudents c ->
      Student.faculty s = Course.faculty c ->
      registerForCourse studentId courseId u
      = (Returned tt,
         mkUMS (students u) (courses u) (grades u)
           (courseRegistrations u ++ [Registration.mk studentId courseId])
           (nextStudentId u) (nextCourseId u))) /\
     (forall m n : nat,
        Course.maxStudents c = Z.of_nat m -> registration_count u courseId = 0 ->
        Student.faculty s = Course.faculty c ->
        results_of (repeat (RegisterForCourse studentId courseId) n) u
        = repeat (Returned VVoid) (Nat.min n m)
          ++ repeat (Thrown CourseFull) (n - m))).
Proof.
  split; [|split].
  - intros H. apply the_student_none in H. now rewrite registerForCourse_eq, H.
  - intros Hs Hc. apply student_exists_found in Hs. destruct Hs as [s Hs].
    apply the_course_none in Hc. now rewrite registerForCourse_eq, Hs, Hc.
  - intros s c Hs Hc. repeat split.
    + intros Hn. apply (registerForCourse_full u _ _ s c Hs Hc). lia.
    + intros Hn Hf. rewrite registerForCourse_eq, Hs, Hc.
      destruct (Z.geb_spec (registration_count u courseId) (Course.maxStudents c)); [lia|].
      apply Faculty_eqb_neq in Hf. now rewrite Hf.
    + intros Hn Hf. now rewrite (registerForCourse_accepts u _ _ s c Hs Hc Hn Hf).
    + intros m n Hm H0 Hf.
      rewrite (repeated_registration studentId courseId s c m Hm Hf n 0 u Hs Hc H0)
        by lia.
      now rewrite Nat.sub_0_r.
Qed.

Lemma registerForCourse_checks_in_order_witness :
  the_student ums_seeded 1 = Some student1 /\
  the_course ums_seeded 1 = Some course1 /\
  registration_count ums_seeded 1 < Course.maxStudents course1 /\
  Student.faculty student1 = Course.faculty course1 /\
  registerForCourse 1 1 ums_seeded = (Returned tt, ums_registered).
Proof.
  do 4 (split; [reflexivity|]).
  destruct (registerForCourse_checks_in_order ums_seeded 1 1) as (_ & _ & H).
  destruct (H student1 course1 eq_refl eq_refl) as (_ & _ & Hok & _).
  apply Hok; reflexivity.
Defined.

(** ** setGrade *)

Lemma call_SetGrade (u : UniversityManagementSystem) (studentId courseId : Z)
    (grade : Grade) (now : Date) :
  call (SetGrade studentId courseId grade now) u =
  match setGrade studentId courseId grade now u with
  | (Returned _, u') => (Returned VVoid, u')
  | (Thrown e, u') => (Thrown e, u')
  end.
Proof. reflexivity. Qed.

Lemma setGrade_accepts (u : UniversityManagementSystem) (studentId courseId : Z)
    (grade : Grade) (now : Date) (c : Course.t) :
  registered u studentId courseId -> the_course u courseId = Some c ->
  setGrade studentId courseId grade now u
  = (Returned tt,
     with_grade u (StudentGrade.mk studentId courseId grade now (Course.semester c))).
Proof.
  intros Hr Hc. apply registered_existsb in Hr. now rewrite setGrade_eq, Hr, Hc.
Qed.

Lemma setGrade_not_registered (u : UniversityManagementSystem) (studentId courseId : Z)
    (grade : Grade) (now : Date) :
  ~ registered u studentId courseId ->
  setGrade studentId courseId grade now u = (Thrown NotRegistered, u).
Proof.
  intros Hr. rewrite setGrade_eq.
  destruct (existsb _ _) eqn:E; [|reflexivity].
  apply registered_existsb in E. contradiction.
Qed.

(** ** Every call is a step *)

Lemma call_UpdateStudentStatus (u : UniversityManagementSystem) (studentId : Z)
    (newStatus : StudentStatus) :
  call (UpdateStudentStatus studentId newStatus) u =
  match updateStudentStatus studentId newStatus u with
  | (Returned _, u') => (Returned VVoid, u')
  | (Thrown e, u') => (Thrown e, u')
  end.
Proof. reflexivity. Qed.

Lemma call_transition (c : Call) (u : UniversityManagementSystem) :
  transition u (snd (call c u)).
Proof.
  destruct c as [d|d|sid cid|sid cid g now|sid st|f|sid|f sem|sid|f];
    try apply t_unchanged.
  - apply (t_enrollStudent false u
             (Student.mk (spread_over_id (nextStudentId u) (StudentData.id d))
                (StudentData.fullName d) (StudentData.faculty d)
                (StudentData.year d) (StudentData.status d)
                (StudentData.enrollmentDate d) (StudentData.groupNumber d))).
    discriminate.
  - apply (t_addCourse false u
             (Course.mk (spread_over_id (nextCourseId u) (CourseData.id d))
                (CourseData.name d) (CourseData.type d)
                (CourseData.credits d) (CourseData.semester d)
                (CourseData.faculty d) (CourseData.maxStudents d))).
    discriminate.
  - rewrite call_RegisterForCourse, registerForCourse_eq.
    destruct (the_student u sid) as [s|] eqn:Hs; [|apply t_unchanged].
    destruct (the_course u cid) as [c|] eqn:Hc; [|apply t_unchanged].
    destruct (Z.geb_spec (registration_count u cid) (Course.maxStudents c));
      [apply t_unchanged|].
    destruct (Faculty_eqb _ _) eqn:Hf; [|apply t_unchanged].
    apply Faculty_eqb_eq in Hf. now apply (t_registerForCourse false u sid cid s c).
  - rewrite call_SetGrade, setGrade_eq.
    destruct (existsb _ _) eqn:Hr; [|apply t_unchanged].
    apply registered_existsb in Hr.
    destruct (the_course u cid) as [c|] eqn:Hc; [|apply t_unchanged].
    now apply t_setGrade.
  - rewrite call_UpdateStudentStatus, updateStudentStatus_eq.
    destruct (the_student u sid) as [s|] eqn:Hs; [|apply t_unchanged].
    destruct (StudentStatus_eqb (Student.status s) Expelled
              && negb (StudentStatus_eqb st Expelled)) eqn:E; [apply t_unchanged|].
    apply (t_updateStudentStatus false u sid st s Hs).
    intros Hx. rewrite Hx in E. simpl in E. apply negb_false_iff in E.
    now apply StudentStatus_eqb_eq.
Qed.

Lemma run_cons (c : Call) (cs : list Call) (u : UniversityManagementSystem) :
  run (c :: cs) u
  = (fst (call c u) :: results_of cs (snd (call c u)), state_after cs (snd (call c u))).
Proof.
  unfold results_of, state_after. simpl.
  destruct (call c u) as [r u']. simpl. now destruct (run cs u').
Qed.

Lemma state_after_cons (c : Call) (cs : list Call) (u : UniversityManagementSystem) :
  state_after (c :: cs) u = state_after cs (snd (call c u)).
Proof. unfold state_after at 1. now rewrite run_cons. Qed.

Lemma results_of_cons (c : Call) (cs : list Call) (u : UniversityManagementSystem) :
  results_of (c :: cs) u = fst (call c u) :: results_of cs (snd (call c u)).
Proof. unfold results_of at 1. now rewrite run_cons. Qed.

(** A relation between states that holds of a state and itself and composes
    with one step holds across every sequence of calls. *)
Lemma across_calls (P : UniversityManagementSystem -> UniversityManagementSystem -> Prop) :
  (forall u, P u u) ->
  (forall u v w, transition u v -> P v w -> P u w) ->
  forall cs u, P u (state_after cs u).
Proof.
  intros Hrefl Hstep. induction cs as [|c cs IH]; intros u; [apply Hrefl|].
  rewrite state_after_cons. apply (Hstep u (snd (call c u))); [apply call_transition|apply IH].
Qed.

(** A property of states that every step preserves holds after every sequence
    of calls. *)
Lemma after_calls (I : UniversityManagementSystem -> Prop) :
  (forall u v, transition u v -> I u -> I v) ->
  forall cs u, I u -> I (state_after cs u).
Proof.
  intros Hstep. induction cs as [|c cs IH]; intros u Hu; [exact Hu|].
  rewrite state_after_cons. apply IH. apply (Hstep u); [apply call_transition|exact Hu].
Qed.

Lemma transition_grades (u v : UniversityManagementSystem) :
  transition u v -> exists added, grades v = grades u ++ added.
Proof.
  intros [ | s _ | c _ | sid cid s c _ _ _ _ | sid cid g now c _ _ | sid st s _ _ ];
    simpl; try (exists []; now rewrite app_nil_r).
  eexists; reflexivity.
Qed.

(** C2: [setGrade] throws [NotRegistered] when no registration of exactly the
    pair exists; else [CourseNotFound] when no course has the id; else it
    returns and appends one grade record whose semester is the course's.
    Grading the pair again appends a second record, and no sequence of calls
    changes or drops a grade record already stored. *)
Theorem setGrade_appends_grade
    (u : UniversityManagementSystem) (studentId courseId : Z) (grade : Grade) (now : Date) :
  (~ registered u studentId courseId ->
   setGrade studentId courseId grade now u = (Thrown NotRegistered, u)) /\
  (registered u studentId courseId -> ~ course_exists u courseId ->
   setGrade studentId courseId grade now u = (Thrown CourseNotFound, u)) /\
  (forall c,
     registered u studentId courseId -> the_course u courseId = Some c ->
     setGrade studentId courseId grade now u
     = (Returned tt,
        mkUMS (students u) (courses u)
          (grades u ++ [StudentGrade.mk studentId courseId grade now (Course.semester c)])
          (courseRegistrations u) (nextStudentId u) (nextCourseId u)) /\
     forall grade' now',
       run [SetGrade studentId courseId grade now;
            SetGrade studentId courseId grade' now'] u
       = ([Returned VVoid; Returned VVoid],
          mkUMS (students u) (courses u)
            (grades u ++ [StudentGrade.mk studentId courseId grade now (Course.semester c);
                          StudentGrade.mk studentId courseId grade' now' (Course.semester c)])
            (courseRegistrations u) (nextStudentId u) (nextCourseId u))) /\
  (forall cs, exists added, grades (state_after cs u) = grades u ++ added).
Proof.
  split; [|split; [|split]].
  - apply setGrade_not_registered.
  - intros Hr Hc. apply registered_existsb in Hr. apply the_course_none in Hc.
    now rewrite setGrade_eq, Hr, Hc.
  - intros c Hr Hc. split.
    + now rewrite (setGrade_accepts u _ _ grade now c Hr Hc).
    + intros grade' now'. rewrite run_cons, call_SetGrade.
      rewrite (setGrade_accepts u _ _ grade now c Hr Hc). cbn [fst snd].
      unfold results_of, state_after. rewrite run_cons, call_SetGrade.
      rewrite (setGrade_accepts _ _ _ grade' now' c); [|exact Hr|exact Hc].
      unfold with_grade, set_grades. cbn. now rewrite <- app_assoc.
  - intros cs.
    refine (across_calls (fun u w => exists added, grades w = grades u ++ added) _ _ cs u).
    + intros v. exists []. now rewrite app_nil_r.
    + intros a b w Hab [l2 Hbw]. destruct (transition_grades a b Hab) as [l1 H1].
      exists (l1 ++ l2). now rewrite Hbw, H1, app_assoc.
Qed.

Lemma setGrade_appends_grade_witness :
  registered ums_registered 1 1 /\
  the_course ums_registered 1 = Some course1 /\
  setGrade 1 1 Excellent 1700000000001 ums_registered = (Returned tt, ums_graded).
Proof.
  split; [left; reflexivity|]. split; [reflexivity|].
  destruct (setGrade_appends_grade ums_registered 1 1 Excellent 1700000000001)
    as (_ & _ & H & _).
  destruct (H course1 (or_introl eq_refl) eq_refl) as [Hok _].
  exact Hok.
Defined.

(** ** Calls that throw *)

Lemma registerForCourse_thrown (u u' : UniversityManagementSystem) (e : Error)
    (studentId courseId : Z) :
  registerForCourse studentId courseId u = (Thrown e, u') -> u' = u.
Proof.
  rewrite registerForCourse_eq.
  destruct (the_student u studentId); [|congruence].
  destruct (the_course u courseId); [|congruence].
  destruct (_ >=? _); [congruence|].
  destruct (Faculty_eqb _ _); congruence.
Qed.

Lemma setGrade_thrown (u u' : UniversityManagementSystem) (e : Error)
    (studentId courseId : Z) (grade : Grade) (now : Date) :
  setGrade studentId courseId grade now u = (Thrown e, u') -> u' = u.
Proof.
  rewrite setGrade_eq.
  destruct (existsb _ _); [|congruence].
  destruct (the_course u courseId); congruence.
Qed.

Lemma updateStudentStatus_thrown (u u' : UniversityManagementSystem) (e : Error)
    (studentId : Z) (newStatus : StudentStatus) :
  updateStudentStatus studentId newStatus u = (Thrown e, u') -> u' = u.
Proof.
  rewrite updateStudentStatus_eq.
  destruct (the_student u studentId); [|congruence].
  destruct (_ && _); congruence.
Qed.

Lemma call_thrown (c : Call) (u u' : UniversityManagementSystem) (e : Error) :
  call c u = (Thrown e, u') -> u' = u.
Proof.
  destruct c as [d|d|sid cid|sid cid g now|sid st|f|sid|f sem|sid|f];
    try (cbv [call read]; congruence).
  - cbv; congruence.
  - cbv; congruence.
  - rewrite call_RegisterForCourse.
    destruct (registerForCourse sid cid u) as [[[]|e0] u0] eqn:E; [congruence|].
    intros H. injection H as -> ->. now apply registerForCourse_thrown in E.
  - rewrite call_SetGrade.
    destruct (setGrade sid cid g now u) as [[[]|e0] u0] eqn:E; [congruence|].
    intros H. injection H as -> ->. now apply setGrade_thrown in E.
  - rewrite call_UpdateStudentStatus.
    destruct (updateStudentStatus sid st u) as [[[]|e0] u0] eqn:E; [congruence|].
    intros H. injection H as -> ->. now apply updateStudentStatus_thrown in E.
Qed.

(** C7: when [registerForCourse], [setGrade] or [updateStudentStatus] throws,
    the state (the four collections and the two counters) is the one before
    the call, and the calls that follow behave as they would have without
    the failed call. *)
Theorem failed_call_changes_nothing
    (u u' : UniversityManagementSystem) (e : Error) :
  (forall studentId courseId,
     registerForCourse studentId courseId u = (Thrown e, u') -> u' = u) /\
  (forall studentId courseId grade now,
     setGrade studentId courseId grade now u = (Thrown e, u') -> u' = u) /\
  (forall studentId newStatus,
     updateStudentStatus studentId newStatus u = (Thrown e, u') -> u' = u) /\
  (forall c cs,
     call c u = (Thrown e, u') ->
     run (c :: cs) u = (Thrown e :: results_of cs u, state_after cs u)).
Proof.
  repeat split.
  - intros sid cid. apply registerForCourse_thrown.
  - intros sid cid g now. apply setGrade_thrown.
  - intros sid st. apply updateStudentStatus_thrown.
  - intros c cs H. rewrite run_cons, H. cbn [fst snd].
    now rewrite (call_thrown c u u' e H).
Qed.

Lemma failed_call_changes_nothing_witness :
  call (RegisterForCourse 2 1) ums_seeded = (Thrown StudentNotFound, ums_seeded) /\
  run [RegisterForCourse 2 1; RegisterForCourse 1 1] ums_seeded
  = ([Thrown StudentNotFound; Returned VVoid], ums_registered).
Proof.
  split; [reflexivity|].
  destruct (failed_call_changes_nothing ums_seeded ums_seeded StudentNotFound)
    as (_ & _ & _ & H).
  exact (H (RegisterForCourse 2 1) [RegisterForCourse 1 1] eq_refl).
Defined.

(** ** Registering a pair twice *)

Lemma count_pair_app (studentId courseId : Z) (l l' : list Registration.t) :
  count_pair studentId courseId (l ++ l')
  = (count_pair studentId courseId l + count_pair studentId courseId l')%nat.
Proof.
  induction l as [|reg l IH]; simpl; [reflexivity|].
  destruct (_ && _); simpl; now rewrite IH.
Qed.

Lemma count_pair_registered (u : UniversityManagementSystem) (studentId courseId : Z) :
  registered u studentId courseId ->
  (1 <= count_pair studentId courseId (courseRegistrations u))%nat.
Proof.
  unfold registered. induction (courseRegistrations u) as [|reg l IH]; simpl; [tauto|].
  intros [->|H].
  - simpl. rewrite !Z.eqb_refl. simpl. lia.
  - specialize (IH H). destruct (_ && _); lia.
Qed.

(** C8, as the code has it: a call for a pair that is registered already
    is not turned away for being a duplicate, but it goes through the
    capacity check and the faculty check like every call.  With a place left
    and equal faculties it returns and the pair has one registration more;
    with no place left it throws [CourseFull]; with a place left and different
    faculties it throws [FacultyMismatch]. *)
Theorem duplicate_registration_is_checked_again
    (u : UniversityManagementSystem) (studentId courseId : Z)
    (s : Student.t) (c : Course.t) :
  registered u studentId courseId ->
  the_student u studentId = Some s ->
  the_course u courseId = Some c ->
  (registration_count u courseId < Course.maxStudents c ->
   Student.faculty s = Course.faculty c ->
   registerForCourse studentId courseId u
   = (Returned tt, with_registration u studentId courseId) /\
   courseRegistrations (with_registration u studentId courseId)
   = courseRegistrations u ++ [Registration.mk studentId courseId] /\
   count_pair studentId courseId (courseRegistrations (with_registration u studentId courseId))
   = S (count_pair studentId courseId (courseRegistrations u)) /\
   (2 <= count_pair studentId courseId
           (courseRegistrations (with_registration u studentId courseId)))%nat) /\
  (Course.maxStudents c <= registration_count u courseId ->
   registerForCourse studentId courseId u = (Thrown CourseFull, u)) /\
  (registration_count u courseId < Course.maxStudents c ->
   Student.faculty s <> Course.faculty c ->
   registerForCourse studentId courseId u = (Thrown FacultyMismatch, u)).
Proof.
  intros Hr Hs Hc.
  assert (Hcount : count_pair studentId courseId
                     (courseRegistrations (with_registration u studentId courseId))
                   = S (count_pair studentId courseId (courseRegistrations u))).
  { unfold with_registration. simpl. rewrite count_pair_app. simpl.
    rewrite !Z.eqb_refl. simpl. lia. }
  split; [|split].
  - intros Hn Hf. split; [now apply (registerForCourse_accepts u _ _ s c)|].
    split; [reflexivity|]. split; [exact Hcount|].
    rewrite Hcount. apply count_pair_registered in Hr. lia.
  - apply (registerForCourse_full u _ _ s c Hs Hc).
  - intros Hn Hf. rewrite registerForCourse_eq, Hs, Hc.
    destruct (Z.geb_spec (registration_count u courseId) (Course.maxStudents c)); [lia|].
    apply Faculty_eqb_neq in Hf. now rewrite Hf.
Qed.

Lemma duplicate_registration_is_checked_again_witness :
  registered ums_registered 1 1 /\
  the_student ums_registered 1 = Some student1 /\
  the_course ums_registered 1 = Some course1 /\
  registration_count ums_registered 1 < Course.maxStudents course1 /\
  Student.faculty student1 = Course.faculty course1 /\
  registerForCourse 1 1 ums_registered
  = (Returned tt, with_registration ums_registered 1 1).
Proof.
  split; [left; reflexivity|]. do 4 (split; [reflexivity|]).
  destruct (duplicate_registration_is_checked_again ums_registered 1 1 student1 course1
              (or_introl eq_refl) eq_refl eq_refl) as (H & _).
  destruct (H eq_refl eq_refl) as (Hok & _). exact Hok.
Defined.

(** C8, as the specification states it, fails: in a course for one student
    that has its one registration, the registered pair is registered, and a
    second call for it throws [CourseFull] and appends nothing. *)
Lemma duplicate_registration_rejected_when_full :
  registered ums_small_full 1 1 /\
  registerForCourse 1 1 ums_small_full = (Thrown CourseFull, ums_small_full) /\
  ~ (forall u studentId courseId,
       registered u studentId courseId ->
       registerForCourse studentId courseId u
       = (Returned tt, with_registration u studentId courseId)).
Proof.
  split; [left; reflexivity|]. split; [reflexivity|].
  intros H. specialize (H ums_small_full 1 1 (or_introl eq_refl)). discriminate H.
Qed.

(** ** updateStudentStatus *)

Lemma same_but_status_refl (s : Student.t) : same_but_status s s.
Proof. repeat split. Qed.

Lemma same_but_status_trans (a b c : Student.t) :
  same_but_status a b -> same_but_status b c -> same_but_status a c.
Proof.
  unfold same_but_status. intros (?&?&?&?&?&?) (?&?&?&?&?&?).
  repeat split; congruence.
Qed.

Lemma same_but_status_set (v : StudentStatus) (s : Student.t) :
  same_but_status s (Student.set_status v s).
Proof. repeat split. Qed.


Lemma assign_status_nth (studentId : Z) (newStatus : StudentStatus)
    (l : list Student.t) (found : Student.t) :
  find (fun x => Student.id x =? studentId) l = Some found ->
  (Student.status found = Expelled -> newStatus = Expelled) ->
  forall k s, nth_error l k = Some s ->
    exists s', nth_error (assign_status studentId newStatus l) k = Some s' /\
               same_but_status s s' /\
               (Student.status s = Expelled -> Student.status s' = Expelled).
Proof.
  intros Hfind Hguard.
  induction l as [|a l IH] in Hfind |- *; intros k s Hk; [now destruct k|].
  simpl in Hfind |- *.
  destruct (Z.eqb_spec (Student.id a) studentId) as [Heq|Hne].
  - injection Hfind as ->. destruct k as [|k]; simpl in Hk |- *.
    + injection Hk as ->. exists (Student.set_status newStatus s).
      split; [reflexivity|]. split; [apply same_but_status_set|exact Hguard].
    + exists s. split; [exact Hk|]. split; [apply same_but_status_refl|tauto].
  - destruct k as [|k]; simpl in Hk |- *.
    + injection Hk as ->. exists s. split; [reflexivity|].
      split; [apply same_but_status_refl|tauto].
    + now apply IH.
Qed.

Lemma students_kept_refl (u : UniversityManagementSystem) : students_kept u u.
Proof.
  intros k s Hk. exists s. split; [exact Hk|].
  split; [apply same_but_status_refl|tauto].
Qed.

Lemma students_kept_trans (u v w : UniversityManagementSystem) :
  students_kept u v -> students_kept v w -> students_kept u w.
Proof.
  intros Huv Hvw k s Hk.
  destruct (Huv k s Hk) as (s1 & Hk1 & Hs1 & He1).
  destruct (Hvw k s1 Hk1) as (s2 & Hk2 & Hs2 & He2).
  exists s2. split; [exact Hk2|].
  split; [now apply (same_but_status_trans s s1 s2)|tauto].
Qed.

Lemma students_kept_same (u v : UniversityManagementSystem) :
  students v = students u -> students_kept u v.
Proof.
  intros H k s Hk. exists s. rewrite H. split; [exact Hk|].
  split; [apply same_but_status_refl|tauto].
Qed.

Lemma transition_students_kept (u v : UniversityManagementSystem) :
  transition u v -> students_kept u v.
Proof.
  intros [ | s _ | c _ | sid cid s c _ _ _ _ | sid cid g now c _ _ | sid st s Hs Hg ];
    try (apply students_kept_same; reflexivity).
  - intros k x Hk. exists x. simpl. split.
    + rewrite nth_error_app1; [exact Hk|]. apply nth_error_Some. congruence.
    + split; [apply same_but_status_refl|tauto].
  - intros k x Hk. simpl. now apply (assign_status_nth sid st (students u) s).
Qed.

Lemma students_kept_after (cs : list Call) (u : UniversityManagementSystem) :
  students_kept u (state_after cs u).
Proof.
  apply (across_calls students_kept).
  - apply students_kept_refl.
  - intros a b w Hab Hbw. apply (students_kept_trans a b w); [|exact Hbw].
    now apply transition_students_kept.
Qed.



(** ** What the steps keep *)

Lemma transition_courses (u v : UniversityManagementSystem) :
  transition u v -> exists added, courses v = courses u ++ added.
Proof.
  intros [ | s _ | c _ | sid cid s c _ _ _ _ | sid cid g now c _ _ | sid st s _ _ ];
    simpl; try (exists []; now rewrite app_nil_r).
  eexists; reflexivity.
Qed.

Lemma transition_registrations (u v : UniversityManagementSystem) :
  transition u v -> exists added, courseRegistrations v = courseRegistrations u ++ added.
Proof.
  intros [ | s _ | c _ | sid cid s c _ _ _ _ | sid cid g now c _ _ | sid st s _ _ ];
    simpl; try (exists []; now rewrite app_nil_r).
  eexists; reflexivity.
Qed.

Lemma students_kept_exists (u v : UniversityManagementSystem) (studentId : Z) :
  students_kept u v -> student_exists u studentId -> student_exists v studentId.
Proof.
  intros Hk (s & Hin & Hid). apply In_nth_error in Hin. destruct Hin as [k Hn].
  destruct (Hk k s Hn) as (s' & Hn' & Hsame & _).
  exists s'. split; [now apply nth_error_In in Hn'|].
  destruct Hsame as [Hid' _]. congruence.
Qed.

Lemma transition_student_exists (u v : UniversityManagementSystem) (studentId : Z) :
  transition u v -> student_exists u studentId -> student_exists v studentId.
Proof. intros T. apply students_kept_exists. now apply transition_students_kept. Qed.

Lemma transition_course_exists (u v : UniversityManagementSystem) (courseId : Z) :
  transition u v -> course_exists u courseId -> course_exists v courseId.
Proof.
  intros T (c & Hin & Hid). destruct (transition_courses u v T) as [added H].
  exists c. rewrite H. split; [apply in_or_app; now left|exact Hid].
Qed.

Lemma transition_registered (u v : UniversityManagementSystem) (studentId courseId : Z) :
  transition u v -> registered u studentId courseId -> registered v studentId courseId.
Proof.
  unfold registered. intros T Hin.
  destruct (transition_registrations u v T) as [added H].
  rewrite H. apply in_or_app. now left.
Qed.

(** A registration that a step adds names a student and a course that exist. *)
Lemma transition_new_registration (u v : UniversityManagementSystem) :
  transition u v ->
  forall reg, In reg (courseRegistrations v) ->
    In reg (courseRegistrations u) \/
    (student_exists u (Registration.studentId reg) /\
     course_exists u (Registration.courseId reg)).
Proof.
  intros [ | s _ | c _ | sid cid s c Hs Hc _ _ | sid cid g now c _ _ | sid st s _ _ ]
    reg Hin; simpl in Hin; try (now left).
  apply in_app_or in Hin. destruct Hin as [Hin|[<-|[]]]; [now left|right]. simpl.
  apply the_student_some in Hs. apply the_course_some in Hc.
  split; [now exists s|now exists c].
Qed.

(** A grade that a step adds is for a registered pair. *)
Lemma transition_new_grade (u v : UniversityManagementSystem) :
  transition u v ->
  forall g, In g (grades v) ->
    In g (grades u) \/ registered u (StudentGrade.studentId g) (StudentGrade.courseId g).
Proof.
  intros [ | s _ | c _ | sid cid s c _ _ _ _ | sid cid gr now c Hr _ | sid st s _ _ ]
    g Hin; simpl in Hin; try (now left).
  apply in_app_or in Hin. destruct Hin as [Hin|[<-|[]]]; [now left|right]. exact Hr.
Qed.

Lemma transition_referential_integrity (u v : UniversityManagementSystem) :
  transition u v -> referential_integrity u -> referential_integrity v.
Proof.
  intros T [Hr Hg]. split.
  - intros reg Hin.
    assert (H : student_exists u (Registration.studentId reg) /\
                course_exists u (Registration.courseId reg)).
    { destruct (transition_new_registration u v T reg Hin) as [Hold|Hnew];
        [now apply Hr|exact Hnew]. }
    destruct H as [H1 H2].
    split; [now apply (transition_student_exists u v)|now apply (transition_course_exists u v)].
  - intros g Hin. apply (transition_registered u v _ _ T).
    destruct (transition_new_grade u v T g Hin) as [Hold|Hnew]; [now apply Hg|exact Hnew].
Qed.

(** C10: after every sequence of calls on a new object, each registration
    names a student and a course that exist and each grade record is for a
    pair that has a registration; every call keeps this so. *)
Theorem referential_integrity_holds :
  (forall cs, referential_integrity (state_after cs new_UniversityManagementSystem)) /\
  (forall c u, referential_integrity u -> referential_integrity (snd (call c u))).
Proof.
  assert (Hstep : forall c u, referential_integrity u ->
                              referential_integrity (snd (call c u))).
  { intros c u. apply transition_referential_integrity, call_transition. }
  split; [|exact Hstep].
  intros cs. apply (after_calls referential_integrity).
  - apply transition_referential_integrity.
  - split; intros x [].
Qed.

Lemma referential_integrity_holds_witness :
  referential_integrity ums_registered /\ referential_integrity ums_graded.
Proof.
  destruct referential_integrity_holds as [Hall Hstep].
  split.
  - exact (Hall [AddCourse course1_data; EnrollStudent student1_data;
                 RegisterForCourse 1 1]).
  - apply (Hstep (SetGrade 1 1 Excellent 1700000000001) ums_registered).
    exact (Hall [AddCourse course1_data; EnrollStudent student1_data;
                 RegisterForCourse 1 1]).
Defined.

(** The students list after a call that is not [updateStudentStatus] is the
    list before with at most a new record at its end. *)
Lemma call_students (c : Call) (u : UniversityManagementSystem) :
  (forall studentId newStatus, c <> UpdateStudentStatus studentId newStatus) ->
  exists added, students (snd (call c u)) = students u ++ added.
Proof.
  intros Hc.
  destruct c as [d|d|sid cid|sid cid g now|sid st|f|sid|f sem|sid|f];
    try (exists []; now rewrite app_nil_r).
  - eexists; reflexivity.
  - rewrite call_RegisterForCourse, registerForCourse_eq.
    exists []. rewrite app_nil_r.
    destruct (the_student u sid); [|reflexivity].
    destruct (the_course u cid); [|reflexivity].
    destruct (_ >=? _); [reflexivity|].
    destruct (Faculty_eqb _ _); reflexivity.
  - rewrite call_SetGrade, setGrade_eq.
    exists []. rewrite app_nil_r.
    destruct (existsb _ _); [|reflexivity].
    destruct (the_course u cid); reflexivity.
  - now destruct (Hc sid st).
Qed.

(** C9: across every sequence of calls the courses list only grows at its
    end, so no course record is changed or dropped; every student record
    stays at its position with its id, name, faculty, year, enrollment date
    and group; and a call other than [updateStudentStatus] leaves every
    student record as it was. *)
Theorem records_are_kept (cs : list Call) (u : UniversityManagementSystem) :
  (exists added, courses (state_after cs u) = courses u ++ added) /\
  (forall k s, nth_error (students u) k = Some s ->
     exists s', nth_error (students (state_after cs u)) k = Some s' /\
                Student.id s' = Student.id s /\
                Student.fullName s' = Student.fullName s /\
                Student.faculty s' = Student.faculty s /\
                Student.year s' = Student.year s /\
                Student.enrollmentDate s' = Student.enrollmentDate s /\
                Student.groupNumber s' = Student.groupNumber s) /\
  (forall c,
     (forall studentId newStatus, c <> UpdateStudentStatus studentId newStatus) ->
     exists added, students (snd (call c u)) = students u ++ added).
Proof.
  split; [|split].
  - refine (across_calls (fun u w => exists added, courses w = courses u ++ added) _ _ cs u).
    + intros v. exists []. now rewrite app_nil_r.
    + intros a b w Hab [l2 Hbw]. destruct (transition_courses a b Hab) as [l1 H1].
      exists (l1 ++ l2). now rewrite Hbw, H1, app_assoc.
  - intros k s Hk. destruct (students_kept_after cs u k s Hk) as (s' & Hk' & Hsame & _).
    exists s'. split; [exact Hk'|exact Hsame].
  - intros c. apply call_students.
Qed.

Lemma records_are_kept_witness :
  nth_error (students ums_seeded) 0 = Some student1 /\
  exists s', nth_error (students (state_after [UpdateStudentStatus 1 Graduated] ums_seeded)) 0
             = Some s' /\
             Student.fullName s' = Student.fullName student1 /\
             Student.faculty s' = Student.faculty student1 /\
             Student.year s' = Student.year student1.
Proof.
  split; [reflexivity|].
  destruct (records_are_kept [UpdateStudentStatus 1 Graduated] ums_seeded) as (_ & H & _).
  destruct (H 0%nat student1 eq_refl) as (s' & Hk & _ & Hn & Hf & Hy & _).
  exists s'. repeat split; assumption.
Defined.

(** ** Identities *)

(** A call returns a student record only when it is [enrollStudent]; the
    counter then moves on by one, and the record carries the counter's value
    when the argument has no [id] of its own.  Every other call leaves the
    counter alone. *)
Lemma call_student_counter (c : Call) (u : UniversityManagementSystem) :
  match fst (call c u) with
  | Returned (VStudent s) =>
      nextStudentId (snd (call c u)) = nextStudentId u + 1 /\
      (plain_call c -> Student.id s = nextStudentId u)
  | _ => nextStudentId (snd (call c u)) = nextStudentId u
  end.
Proof.
  destruct c as [d|d|sid cid|sid cid g now|sid st|f|sid|f sem|sid|f];
    try reflexivity.
  - split; [reflexivity|]. simpl. intros ->. reflexivity.
  - rewrite call_RegisterForCourse, registerForCourse_eq.
    destruct (the_student u sid); [|reflexivity].
    destruct (the_course u cid); [|reflexivity].
    destruct (_ >=? _); [reflexivity|].
    destruct (Faculty_eqb _ _); reflexivity.
  - rewrite call_SetGrade, setGrade_eq.
    destruct (existsb _ _); [|reflexivity].
    destruct (the_course u cid); reflexivity.
  - rewrite call_UpdateStudentStatus, updateStudentStatus_eq.
    destruct (the_student u sid); [|reflexivity].
    destruct (_ && _); reflexivity.
Qed.

Lemma call_course_counter (c : Call) (u : UniversityManagementSystem) :
  match fst (call c u) with
  | Returned (VCourse x) =>
      nextCourseId (snd (call c u)) = nextCourseId u + 1 /\
      (plain_call c -> Course.id x = nextCourseId u)
  | _ => nextCourseId (snd (call c u)) = nextCourseId u
  end.
Proof.
  destruct c as [d|d|sid cid|sid cid g now|sid st|f|sid|f sem|sid|f];
    try reflexivity.
  - split; [reflexivity|]. simpl. intros ->. reflexivity.
  - rewrite call_RegisterForCourse, registerForCourse_eq.
    destruct (the_student u sid); [|reflexivity].
    destruct (the_course u cid); [|reflexivity].
    destruct (_ >=? _); [reflexivity|].
    destruct (Faculty_eqb _ _); reflexivity.
  - rewrite call_SetGrade, setGrade_eq.
    destruct (existsb _ _); [|reflexivity].
    destruct (the_course u cid); reflexivity.
  - rewrite call_UpdateStudentStatus, updateStudentStatus_eq.
    destruct (the_student u sid); [|reflexivity].
    destruct (_ && _); reflexivity.
Qed.

(** The counter has moved by the number of records handed out. *)
Lemma student_counter_after (cs : list Call) (u : UniversityManagementSystem) :
  nextStudentId (state_after cs u)
  = nextStudentId u + Z.of_nat (length (assigned_student_ids (results_of cs u))).
Proof.
  induction cs as [|c cs IH] in u |- *;
    [unfold results_of, state_after; simpl; lia|].
  rewrite results_of_cons, state_after_cons, IH.
  pose proof (call_student_counter c u) as Hc.
  destruct (fst (call c u)) as [[ |s| | | | | ]|e];
    cbn [assigned_student_ids length]; try (rewrite Hc; reflexivity).
  destruct Hc as [-> _]. lia.
Qed.

Lemma course_counter_after (cs : list Call) (u : UniversityManagementSystem) :
  nextCourseId (state_after cs u)
  = nextCourseId u + Z.of_nat (length (assigned_course_ids (results_of cs u))).
Proof.
  induction cs as [|c cs IH] in u |- *;
    [unfold results_of, state_after; simpl; lia|].
  rewrite results_of_cons, state_after_cons, IH.
  pose proof (call_course_counter c u) as Hc.
  destruct (fst (call c u)) as [[ | |x| | | | ]|e];
    cbn [assigned_course_ids length]; try (rewrite Hc; reflexivity).
  destruct Hc as [-> _]. lia.
Qed.

(** When no argument has an [id] of its own, the ids handed out are the
    successive values of the counter. *)
Lemma assigned_student_ids_count_up (cs : list Call) (u : UniversityManagementSystem) :
  Forall plain_call cs ->
  assigned_student_ids (results_of cs u)
  = count_up (nextStudentId u) (length (assigned_student_ids (results_of cs u))).
Proof.
  induction cs as [|c cs IH] in u |- *; intros Hp; [reflexivity|].
  inversion Hp as [|c' cs' Hc' Hcs]; subst.
  rewrite results_of_cons. specialize (IH (snd (call c u)) Hcs).
  pose proof (call_student_counter c u) as Hc.
  destruct (fst (call c u)) as [[ |s| | | | | ]|e];
    cbn [assigned_student_ids length count_up];
    try (rewrite <- Hc; exact IH).
  destruct Hc as [Hnext Hid]. rewrite Hnext in IH. rewrite (Hid Hc').
  now rewrite <- IH.
Qed.

Lemma assigned_course_ids_count_up (cs : list Call) (u : UniversityManagementSystem) :
  Forall plain_call cs ->
  assigned_course_ids (results_of cs u)
  = count_up (nextCourseId u) (length (assigned_course_ids (results_of cs u))).
Proof.
  induction cs as [|c cs IH] in u |- *; intros Hp; [reflexivity|].
  inversion Hp as [|c' cs' Hc' Hcs]; subst.
  rewrite results_of_cons. specialize (IH (snd (call c u)) Hcs).
  pose proof (call_course_counter c u) as Hc.
  destruct (fst (call c u)) as [[ | |x| | | | ]|e];
    cbn [assigned_course_ids length count_up];
    try (rewrite <- Hc; exact IH).
  destruct Hc as [Hnext Hid]. rewrite Hnext in IH. rewrite (Hid Hc').
  now rewrite <- IH.
Qed.

Lemma count_up_lower (n : nat) (first x : Z) : In x (count_up first n) -> first <= x.
Proof.
  induction n as [|n IH] in first |- *; simpl; [tauto|].
  intros [<-|H]; [lia|]. apply IH in H. lia.
Qed.

Lemma count_up_sorted (n : nat) (first : Z) : StronglySorted Z.lt (count_up first n).
Proof.
  induction n as [|n IH] in first |- *; simpl; constructor; [apply IH|].
  apply Forall_forall. intros x Hx. apply count_up_lower in Hx. lia.
Qed.

Lemma sorted_lt_NoDup (l : list Z) : StronglySorted Z.lt l -> NoDup l.
Proof.
  induction 1 as [|a l Hs IH Hall]; constructor; [|exact IH].
  intros Hin. rewrite Forall_forall in Hall. apply Hall in Hin. lia.
Qed.

Lemma transition_counters (u v : UniversityManagementSystem) :
  transition u v ->
  nextStudentId u <= nextStudentId v /\ nextCourseId u <= nextCourseId v.
Proof.
  intros [ | s _ | c _ | sid cid s c _ _ _ _ | sid cid g now c _ _ | sid st s _ _ ];
    simpl; lia.
Qed.

(** C6: the two counters of a new object are 1, each moves on by one with
    every record created and no call lowers one.  But the id of a created
    record is the counter's value only when the argument has no [id] of its
    own: enrolling a student and then passing the returned record to
    [enrollStudent] again returns the id 1 twice, the second id being neither
    new nor larger than the first, while the counter goes on to 3; a course
    passed to [addCourse] again does the same. *)
Theorem own_id_replaces_the_counter :
  nextStudentId new_UniversityManagementSystem = 1 /\
  nextCourseId new_UniversityManagementSystem = 1 /\
  (forall cs,
     nextStudentId (state_after cs new_UniversityManagementSystem)
     = 1 + Z.of_nat (length (assigned_student_ids
                               (results_of cs new_UniversityManagementSystem))) /\
     nextCourseId (state_after cs new_UniversityManagementSystem)
     = 1 + Z.of_nat (length (assigned_course_ids
                               (results_of cs new_UniversityManagementSystem)))) /\
  (forall c u,
     nextStudentId u <= nextStudentId (snd (call c u)) /\
     nextCourseId u <= nextCourseId (snd (call c u))) /\
  fst (enrollStudent student1_data new_UniversityManagementSystem) = Returned student1 /\
  assigned_student_ids
    (results_of [EnrollStudent student1_data;
                 EnrollStudent (student_as_argument student1)]
       new_UniversityManagementSystem) = [1; 1] /\
  nextStudentId
    (state_after [EnrollStudent student1_data;
                  EnrollStudent (student_as_argument student1)]
       new_UniversityManagementSystem) = 3 /\
  fst (addCourse course1_data new_UniversityManagementSystem) = Returned course1 /\
  assigned_course_ids
    (results_of [AddCourse course1_data; AddCourse (course_as_argument course1)]
       new_UniversityManagementSystem) = [1; 1] /\
  ~ NoDup [1; 1].
Proof.
  split; [reflexivity|]. split; [reflexivity|]. split; [|split].
  - intros cs. split; [apply student_counter_after|apply course_counter_after].
  - intros c u. apply transition_counters, call_transition.
  - repeat (split; [reflexivity|]).
    intros H. inversion H as [|x l Hnot _]. apply Hnot. now left.
Qed.

(** ** Division of numbers *)

Lemma round_half_even_close (x : Q) :
  (- (1 # 2) <= inject_Z (round_half_even x) - x <= 1 # 2)%Q.
Proof.
  pose proof (Qfloor_le x) as Hlo. pose proof (Qlt_floor x) as Hhi.
  rewrite inject_Z_plus in Hhi. change (inject_Z 1) with 1%Q in Hhi.
  unfold round_half_even.
  destruct (Qcompare_spec (x - inject_Z (Qfloor x)) (1 # 2)) as [E|E|E].
  - destruct (Z.even (Qfloor x));
      [|rewrite inject_Z_plus; change (inject_Z 1) with 1%Q]; lra.
  - lra.
  - rewrite inject_Z_plus. change (inject_Z 1) with 1%Q. lra.
Qed.

Lemma round_half_even_ge (n : Z) (x : Q) :
  (inject_Z n <= x)%Q -> n <= round_half_even x.
Proof.
  intros H. pose proof (round_half_even_close x) as [Hc _].
  assert (Hq : (inject_Z n < inject_Z (round_half_even x + 1))%Q).
  { rewrite inject_Z_plus. change (inject_Z 1) with 1%Q. lra. }
  rewrite <- Zlt_Qlt in Hq. lia.
Qed.

Lemma round_half_even_le (n : Z) (x : Q) :
  (x <= inject_Z n)%Q -> round_half_even x <= n.
Proof.
  intros H. pose proof (round_half_even_close x) as [_ Hc].
  assert (Hq : (inject_Z (round_half_even x) < inject_Z (n + 1))%Q).
  { rewrite inject_Z_plus. change (inject_Z 1) with 1%Q. lra. }
  rewrite <- Zlt_Qlt in Hq. lia.
Qed.

Lemma round_half_even_Z (k : Z) (x : Q) :
  (x == inject_Z k)%Q -> round_half_even x = k.
Proof.
  intros H. apply Z.le_antisymm.
  - apply round_half_even_le. lra.
  - apply round_half_even_ge. lra.
Qed.

Lemma nearest_double_low (x : Q) :
  (2 <= x)%Q -> (x < 4)%Q ->
  nearest_double x
  = Qred (inject_Z (round_half_even (x * inject_Z (Zpos two51))) * (1 # two51)).
Proof.
  intros Hlo Hhi. unfold nearest_double.
  destruct (Qcompare_spec x 0) as [E|E|E]; try lra.
  unfold nearest_double_pos, floor_log2.
  assert (H1 : Qle_bool 1 x = true) by (apply Qle_bool_iff; lra).
  rewrite H1.
  pose proof (Qfloor_resp_le _ _ Hlo) as Hf. change (Qfloor 2) with 2 in Hf.
  assert (Hf' : Qfloor x < 4).
  { pose proof (Qfloor_le x). rewrite Zlt_Qlt. change (inject_Z 4) with 4%Q. lra. }
  assert (Hlog : Z.log2 (Qfloor x) = 1).
  { assert (Hc : Qfloor x = 2 \/ Qfloor x = 3) by lia. destruct Hc as [-> | ->]; reflexivity. }
  rewrite Hlog. reflexivity.
Qed.

Lemma nearest_double_high (x : Q) :
  (4 <= x)%Q -> (x < 8)%Q ->
  nearest_double x
  = Qred (inject_Z (round_half_even (x * inject_Z (Zpos two50))) * (1 # two50)).
Proof.
  intros Hlo Hhi. unfold nearest_double.
  destruct (Qcompare_spec x 0) as [E|E|E]; try lra.
  unfold nearest_double_pos, floor_log2.
  assert (H1 : Qle_bool 1 x = true) by (apply Qle_bool_iff; lra).
  rewrite H1.
  pose proof (Qfloor_resp_le _ _ Hlo) as Hf. change (Qfloor 4) with 4 in Hf.
  assert (Hf' : Qfloor x < 8).
  { pose proof (Qfloor_le x). rewrite Zlt_Qlt. change (inject_Z 8) with 8%Q. lra. }
  assert (Hlog : Z.log2 (Qfloor x) = 2).
  { assert (Hc : Qfloor x = 4 \/ Qfloor x = 5 \/ Qfloor x = 6 \/ Qfloor x = 7) by lia.
    destruct Hc as [-> | [-> | [-> | ->]]]; reflexivity. }
  rewrite Hlog. reflexivity.
Qed.

(** Between 2 and 5 a double is a multiple of 2^-51 or, from 4 on, of 2^-50. *)
Lemma nearest_double_grid (x : Q) :
  (2 <= x <= 5)%Q ->
  exists k : positive,
    (k = two51 \/ k = two50) /\
    (nearest_double x == inject_Z (round_half_even (x * inject_Z (Zpos k))) * (1 # k))%Q.
Proof.
  intros [Hlo Hhi]. destruct (Qlt_le_dec x 4) as [H4|H4].
  - exists two51. split; [now left|].
    rewrite (nearest_double_low x Hlo H4). apply Qred_correct.
  - exists two50. split; [now right|].
    rewrite (nearest_double_high x H4) by lra. apply Qred_correct.
Qed.

Lemma nearest_double_range (x : Q) :
  (2 <= x <= 5)%Q -> (2 <= nearest_double x <= 5)%Q.
Proof.
  intros H. destruct (nearest_double_grid x H) as (k & Hk & ->). destruct H as [Hlo Hhi].
  assert (Hr : 2 * Zpos k <= round_half_even (x * inject_Z (Zpos k)) <= 5 * Zpos k).
  { split.
    - apply round_half_even_ge. rewrite inject_Z_mult. change (inject_Z 2) with 2%Q.
      apply Qmult_le_compat_r; [exact Hlo|]. now destruct Hk as [-> | ->].
    - apply round_half_even_le. rewrite inject_Z_mult. change (inject_Z 5) with 5%Q.
      apply Qmult_le_compat_r; [exact Hhi|]. now destruct Hk as [-> | ->]. }
  destruct Hr as [Hr1 Hr2]. rewrite Zle_Qle, inject_Z_mult in Hr1, Hr2.
  destruct Hk as [-> | ->]; unfold two51, two50 in *;
    [change (inject_Z 2251799813685248) with (2251799813685248 # 1)%Q in *
    |change (inject_Z 1125899906842624) with (1125899906842624 # 1)%Q in *];
    change (inject_Z 2) with 2%Q in Hr1; change (inject_Z 5) with 5%Q in Hr2; lra.
Qed.

Lemma nearest_double_error (x : Q) :
  (2 <= x <= 5)%Q -> (Qabs (nearest_double x - x) <= 1 # two51)%Q.
Proof.
  intros H. destruct (nearest_double_grid x H) as (k & Hk & ->).
  pose proof (round_half_even_close (x * inject_Z (Zpos k))) as [Hc1 Hc2].
  apply Qabs_Qle_condition.
  assert (Hk' : ((1 # k) * inject_Z (Zpos k) == 1)%Q).
  { destruct Hk as [-> | ->]; reflexivity. }
  assert (Hs : ((1 # 2) * (1 # k) <= 1 # two51)%Q).
  { destruct Hk as [-> | ->]; discriminate. }
  assert (Hpos : (0 <= 1 # k)%Q) by discriminate.
  set (r := inject_Z (round_half_even (x * inject_Z (Z.pos k)))) in *.
  assert (Hx : (x == x * inject_Z (Zpos k) * (1 # k))%Q).
  { rewrite <- Qmult_assoc, (Qmult_comm (inject_Z _)), Hk'. ring. }
  assert (E1 : (r * (1 # k) - x == (r - x * inject_Z (Zpos k)) * (1 # k))%Q).
  { rewrite Hx at 1. ring. }
  rewrite E1. split.
  - apply (Qle_trans _ (- (1 # 2) * (1 # k))); [lra|].
    apply Qmult_le_compat_r; assumption.
  - apply (Qle_trans _ ((1 # 2) * (1 # k))); [|exact Hs].
    apply Qmult_le_compat_r; assumption.
Qed.

Lemma nearest_double_exact (x : Q) (m : Z) :
  (2 <= x <= 5)%Q -> (x * inject_Z (Zpos two50) == inject_Z m)%Q ->
  (nearest_double x == x)%Q.
Proof.
  intros H Hm. destruct (nearest_double_grid x H) as (k & Hk & ->).
  assert (Hr : exists j, (x * inject_Z (Zpos k) == inject_Z j)%Q).
  { destruct Hk as [-> | ->]; [exists (2 * m)|now exists m].
    rewrite inject_Z_mult, <- Hm. change (inject_Z (Zpos two51)) with (2 * inject_Z (Zpos two50))%Q.
    change (inject_Z 2) with 2%Q. ring. }
  destruct Hr as [j Hj]. rewrite (round_half_even_Z j _ Hj), <- Hj.
  assert (Hk' : (inject_Z (Zpos k) * (1 # k) == 1)%Q).
  { destruct Hk as [-> | ->]; reflexivity. }
  rewrite <- Qmult_assoc, Hk'. ring.
Qed.

(** The division of the machine, on the quotients the grades 2 to 5 give and
    on some others, returns what [number_div] returns. *)
Example number_div_is_the_machine_division :
  float_value (13 / 3)%float = Some (number_div 13 3) /\
  float_value (11 / 3)%float = Some (number_div 11 3) /\
  float_value (14 / 3)%float = Some (number_div 14 3) /\
  float_value (8 / 2)%float = Some (number_div 8 2) /\
  float_value (7 / 2)%float = Some (number_div 7 2) /\
  float_value (5 / 1)%float = Some (number_div 5 1) /\
  float_value (22 / 7)%float = Some (number_div 22 7) /\
  float_value (31 / 9)%float = Some (number_div 31 9) /\
  float_value (1 / 3)%float = Some (number_div 1 3) /\
  float_value (2 / 3)%float = Some (number_div 2 3) /\
  float_value (1 / 10)%float = Some (number_div 1 10) /\
  float_value (100 / 3)%float = Some (number_div 100 3) /\
  float_value (0 / 3)%float = Some (number_div 0 3).
Proof. vm_compute. repeat split. Qed.

(** ** calculateAverageGrade *)

Lemma fold_left_grade_sum (l : list StudentGrade.t) (a : Z) :
  fold_left (fun sum g => sum + Grade_value (StudentGrade.grade g)) l a = a + grade_sum l.
Proof.
  induction l as [|g l IH] in a |- *; simpl; [lia|]. rewrite IH. lia.
Qed.

Lemma getStudentGrades_In (u : UniversityManagementSystem) (studentId : Z)
    (g : StudentGrade.t) :
  In g (getStudentGrades u studentId)
  <-> In g (grades u) /\ StudentGrade.studentId g = studentId.
Proof. unfold getStudentGrades. rewrite filter_In, Z.eqb_eq. tauto. Qed.

Lemma calculateAverageGrade_nonempty (u : UniversityManagementSystem) (studentId : Z) :
  getStudentGrades u studentId <> [] ->
  calculateAverageGrade u studentId
  = number_div (grade_sum (getStudentGrades u studentId))
      (Z.of_nat (length (getStudentGrades u studentId))).
Proof.
  unfold calculateAverageGrade. intros H.
  destruct (getStudentGrades u studentId) as [|g l]; [contradiction|].
  cbn [length Nat.eqb]. now rewrite fold_left_grade_sum.
Qed.

Lemma grade_sum_bounds (l : list StudentGrade.t) :
  2 * Z.of_nat (length l) <= grade_sum l <= 5 * Z.of_nat (length l).
Proof.
  induction l as [|g l IH]; [simpl; lia|].
  cbn [grade_sum length]. destruct (StudentGrade.grade g); cbn [Grade_value]; lia.
Qed.

(** The exact mean of grade values lies between 2 and 5. *)
Lemma mean_range (l : list StudentGrade.t) :
  l <> [] ->
  (2 <= inject_Z (grade_sum l) / inject_Z (Z.of_nat (length l)) <= 5)%Q.
Proof.
  intros H. pose proof (grade_sum_bounds l) as [Hlo Hhi].
  assert (Hn : (0 < inject_Z (Z.of_nat (length l)))%Q).
  { change 0%Q with (inject_Z 0). rewrite <- Zlt_Qlt.
    destruct l; [contradiction|simpl; lia]. }
  split.
  - apply Qle_shift_div_l; [exact Hn|].
    change 2%Q with (inject_Z 2). rewrite <- inject_Z_mult, <- Zle_Qle. exact Hlo.
  - apply Qle_shift_div_r; [exact Hn|].
    change 5%Q with (inject_Z 5). rewrite <- inject_Z_mult, <- Zle_Qle. exact Hhi.
Qed.

(** C4, as the code has it: [calculateAverageGrade] looks at exactly the
    grade records of the student; with none it returns 0; otherwise it
    returns the sum of their grade values divided by their number in binary64
    arithmetic, which is the double nearest the arithmetic mean: it is within
    2^-51 of the mean, and it is the mean whenever the mean is a multiple of
    2^-50.  Grades 5 and 3 give 4. *)
Theorem calculateAverageGrade_is_rounded_mean
    (u : UniversityManagementSystem) (studentId : Z) :
  (forall g, In g (getStudentGrades u studentId)
             <-> In g (grades u) /\ StudentGrade.studentId g = studentId) /\
  (getStudentGrades u studentId = [] -> calculateAverageGrade u studentId = 0%Q) /\
  (getStudentGrades u studentId <> [] ->
   calculateAverageGrade u studentId
   = nearest_double
       (inject_Z (grade_sum (getStudentGrades u studentId))
        / inject_Z (Z.of_nat (length (getStudentGrades u studentId)))) /\
   (Qabs (calculateAverageGrade u studentId
          - inject_Z (grade_sum (getStudentGrades u studentId))
            / inject_Z (Z.of_nat (length (getStudentGrades u studentId))))
    <= 1 # two51)%Q /\
   (forall m : Z,
      (inject_Z (grade_sum (getStudentGrades u studentId))
       / inject_Z (Z.of_nat (length (getStudentGrades u studentId)))
       * inject_Z (Zpos two50) == inject_Z m)%Q ->
      (calculateAverageGrade u studentId
       == inject_Z (grade_sum (getStudentGrades u studentId))
          / inject_Z (Z.of_nat (length (getStudentGrades u studentId))))%Q)) /\
  (forall g1 g2,
     getStudentGrades u studentId = [g1; g2] ->
     StudentGrade.grade g1 = Excellent -> StudentGrade.grade g2 = Satisfactory ->
     (calculateAverageGrade u studentId == 4)%Q).
Proof.
  split; [|split; [|split]].
  - apply getStudentGrades_In.
  - unfold calculateAverageGrade. now intros ->.
  - intros H. rewrite (calculateAverageGrade_nonempty u studentId H).
    unfold number_div. pose proof (mean_range _ H) as Hr.
    split; [reflexivity|]. split.
    + now apply nearest_double_error.
    + intros m Hm. now apply (nearest_double_exact _ m).
  - intros g1 g2 H E1 E2. unfold calculateAverageGrade. rewrite H. simpl.
    rewrite E1, E2. vm_compute. reflexivity.
Qed.

Lemma calculateAverageGrade_is_rounded_mean_witness :
  getStudentGrades ums_three_grades 1 <> [] /\
  (Qabs (calculateAverageGrade ums_three_grades 1 - (13 # 3)) <= 1 # two51)%Q.
Proof.
  split; [discriminate|].
  destruct (calculateAverageGrade_is_rounded_mean ums_three_grades 1) as (_ & _ & H & _).
  destruct (H ltac:(discriminate)) as (_ & Herr & _). exact Herr.
Defined.

(** C4, as the specification states it, fails: for the grades 5, 4 and 4
    the sum is 13 and the count 3, and the method returns
    4878899596318037 / 2^50, which is not 13/3: multiplied by 3 it is not
    13. *)
Lemma exact_mean_fails_for_5_4_4 :
  map StudentGrade.grade (getStudentGrades ums_three_grades 1) = [Excellent; Good; Good] /\
  grade_sum (getStudentGrades ums_three_grades 1) = 13 /\
  calculateAverageGrade ums_three_grades 1 = 4878899596318037 # 1125899906842624 /\
  ~ (calculateAverageGrade ums_three_grades 1 == 13 # 3)%Q /\
  ~ (calculateAverageGrade ums_three_grades 1 * 3 == 13)%Q.
Proof.
  split; [reflexivity|]. split; [reflexivity|].
  split; [vm_compute; reflexivity|].
  split; intros H; vm_compute in H; discriminate H.
Qed.

(** ** getTopStudents *)

Lemma max_step_bounds (xs : list Q) (m0 : Q) :
  exists m,
    fold_left (fun acc x =>
                 match acc with
                 | None => Some x
                 | Some m => Some (if Qle_bool m x then x else m)
                 end) xs (Some m0) = Some m /\
    (m0 <= m)%Q /\ (forall x, In x xs -> (x <= m)%Q) /\ (m = m0 \/ In m xs).
Proof.
  induction xs as [|x xs IH] in m0 |- *; simpl.
  - exists m0. split; [reflexivity|]. split; [apply Qle_refl|]. split; [tauto|now left].
  - destruct (Qle_bool m0 x) eqn:E.
    + apply Qle_bool_iff in E. destruct (IH x) as (m & Hm & Hle & Hall & Hin).
      exists m. split; [exact Hm|]. split; [now apply (Qle_trans _ x)|]. split.
      * intros y [<-|Hy]; [exact Hle|now apply Hall].
      * right. destruct Hin as [->|Hin]; [now left|now right].
    + assert (Hlt : (x <= m0)%Q).
      { apply Qlt_le_weak, Qnot_le_lt. intros H. apply Qle_bool_iff in H. congruence. }
      destruct (IH m0) as (m & Hm & Hle & Hall & Hin).
      exists m. split; [exact Hm|]. split; [exact Hle|]. split.
      * intros y [<-|Hy]; [now apply (Qle_trans _ m0)|now apply Hall].
      * destruct Hin as [->|Hin]; [now left|right; now right].
Qed.

Lemma Math_max_nonempty (x : Q) (xs : list Q) :
  exists m, Math_max (x :: xs) = Some m /\
            In m (x :: xs) /\ forall y, In y (x :: xs) -> (y <= m)%Q.
Proof.
  unfold Math_max. simpl. destruct (max_step_bounds xs x) as (m & Hm & Hle & Hall & Hin).
  exists m. split; [exact Hm|]. split.
  - destruct Hin as [->|Hin]; [now left|now right].
  - intros y [<-|Hy]; [exact Hle|now apply Hall].
Qed.

(** For an [a] among [xs], [a === Math.max(...xs)] says that no element of
    [xs] is larger than [a]. *)
Lemma equals_top_iff (a : Q) (xs : list Q) :
  In a xs ->
  equals_top a (Math_max xs) = true <-> forall x, In x xs -> (x <= a)%Q.
Proof.
  intros Ha. destruct xs as [|x0 xs]; [destruct Ha|].
  destruct (Math_max_nonempty x0 xs) as (m & -> & Hin & Hall). simpl.
  rewrite Qeq_bool_iff. split.
  - intros E y Hy. rewrite E. now apply Hall.
  - intros H. apply Qle_antisym; [now apply Hall|now apply H].
Qed.

Lemma Qgtb_iff (a b : Q) : Qgtb a b = true <-> (b < a)%Q.
Proof.
  unfold Qgtb. rewrite negb_true_iff. split.
  - intros E. apply Qnot_le_lt. intros H. apply Qle_bool_iff in H. congruence.
  - intros H. destruct (Qle_bool a b) eqn:E; [|reflexivity].
    apply Qle_bool_iff in E. now apply Qlt_not_le in H.
Qed.

Lemma filter_map_swap {A B} (f : A -> B) (p : B -> bool) (l : list A) :
  filter p (map f l) = map f (filter (fun x => p (f x)) l).
Proof.
  induction l as [|a l IH]; simpl; [reflexivity|].
  destruct (p (f a)); simpl; now rewrite IH.
Qed.

Lemma getStudentsByFaculty_In (u : UniversityManagementSystem) (faculty : Faculty)
    (s : Student.t) :
  In s (getStudentsByFaculty u faculty)
  <-> In s (students u) /\ Student.faculty s = faculty.
Proof. unfold getStudentsByFaculty. rewrite filter_In, Faculty_eqb_eq. tauto. Qed.

Lemma getTopStudents_filter (u : UniversityManagementSystem) (faculty : Faculty) :
  getTopStudents u faculty
  = filter (fun s =>
              equals_top (calculateAverageGrade u (Student.id s))
                (Math_max (map (fun s' => calculateAverageGrade u (Student.id s'))
                             (getStudentsByFaculty u faculty)))
              && Qgtb (calculateAverageGrade u (Student.id s)) 0)
           (getStudentsByFaculty u faculty).
Proof.
  unfold getTopStudents. rewrite filter_map_swap, !map_map. simpl.
  now rewrite map_id.
Qed.

Lemma is_top_studentb_iff (u : UniversityManagementSystem) (faculty : Faculty)
    (s : Student.t) :
  In s (getStudentsByFaculty u faculty) ->
  is_top_studentb u faculty s = true <-> is_top_student u faculty s.
Proof.
  intros Hs. unfold is_top_studentb, is_top_student.
  rewrite andb_true_iff, forallb_forall, Qgtb_iff.
  apply getStudentsByFaculty_In in Hs. destruct Hs as [Hin Hf]. split.
  - intros [Hall Hpos]. repeat split; try assumption.
    intros s' Hin' Hf'. apply Qle_bool_iff, Hall. now apply getStudentsByFaculty_In.
  - intros (_ & _ & Hpos & Hall). split; [|exact Hpos].
    intros s' Hs'. apply getStudentsByFaculty_In in Hs'. destruct Hs' as [Hin' Hf'].
    now apply Qle_bool_iff, Hall.
Qed.

Lemma getTopStudents_refines (u : UniversityManagementSystem) (faculty : Faculty) :
  getTopStudents u faculty = top_students_spec u faculty.
Proof.
  rewrite getTopStudents_filter. unfold top_students_spec.
  apply filter_ext_in. intros s Hs. unfold is_top_studentb. f_equal.
  apply eq_true_iff_eq. rewrite forallb_forall.
  rewrite equals_top_iff by (apply in_map_iff; now exists s). split.
  - intros H s' Hs'. apply Qle_bool_iff, H, in_map_iff. now exists s'.
  - intros H x Hx. apply in_map_iff in Hx. destruct Hx as (s' & <- & Hs').
    now apply Qle_bool_iff, H.
Qed.

Lemma getTopStudents_In (u : UniversityManagementSystem) (faculty : Faculty)
    (s : Student.t) :
  In s (getTopStudents u faculty) <-> is_top_student u faculty s.
Proof.
  rewrite getTopStudents_refines. unfold top_students_spec. rewrite filter_In. split.
  - intros [Hs Hb]. now apply is_top_studentb_iff.
  - intros H. assert (Hs : In s (getStudentsByFaculty u faculty)).
    { apply getStudentsByFaculty_In. destruct H as (H1 & H2 & _). now split. }
    split; [exact Hs|now apply is_top_studentb_iff].
Qed.

(** C5: [getTopStudents] returns, in the order of the students list, exactly
    the students of the faculty whose average is positive and not below the
    average of any student of the faculty.  When no student of the faculty
    has a grade the result is empty, and a student of the faculty whose
    average equals that of a returned student is returned too. *)
Theorem getTopStudents_are_the_best
    (u : UniversityManagementSystem) (faculty : Faculty) :
  getTopStudents u faculty = top_students_spec u faculty /\
  (forall s, In s (getTopStudents u faculty) <-> is_top_student u faculty s) /\
  ((forall s, In s (students u) -> Student.faculty s = faculty ->
              getStudentGrades u (Student.id s) = []) ->
   getTopStudents u faculty = []) /\
  (forall s1 s2,
     In s1 (getTopStudents u faculty) ->
     In s2 (students u) -> Student.faculty s2 = faculty ->
     (calculateAverageGrade u (Student.id s2)
      == calculateAverageGrade u (Student.id s1))%Q ->
     In s2 (getTopStudents u faculty)).
Proof.
  split; [apply getTopStudents_refines|]. split; [apply getTopStudents_In|]. split.
  - intros Hnone. destruct (getTopStudents u faculty) as [|x l] eqn:E; [reflexivity|].
    assert (Hx : In x (getTopStudents u faculty)) by (rewrite E; now left).
    apply getTopStudents_In in Hx. destruct Hx as (Hin & Hf & Hpos & _).
    unfold calculateAverageGrade in Hpos. rewrite (Hnone x Hin Hf) in Hpos.
    simpl in Hpos. now apply Qlt_irrefl in Hpos.
  - intros s1 s2 H1 Hin Hf Heq. apply getTopStudents_In.
    apply getTopStudents_In in H1. destruct H1 as (_ & _ & Hpos & Hall).
    repeat split; try assumption.
    + now rewrite Heq.
    + intros s' Hin' Hf'. rewrite Heq. now apply Hall.
Qed.

Lemma getTopStudents_are_the_best_witness :
  getTopStudents ums_tie Computer_Science = [student1; student2] /\
  In student2 (getTopStudents ums_tie Computer_Science).
Proof.
  split; [reflexivity|].
  destruct (getTopStudents_are_the_best ums_tie Computer_Science) as (_ & _ & _ & H).
  apply (H student1 student2).
  - left; reflexivity.
  - right; left; reflexivity.
  - reflexivity.
  - reflexivity.
Defined.

(** ** The scenario of the specification

    A course for one student, two students of its faculty: the first
    registration returns, the second throws [CourseFull], the grade
    [Excellent] of the first student is stored and the average is 5. *)
Example end_to_end_scenario :
  results_of
    [AddCourse small_course_data;
     EnrollStudent student1_data; EnrollStudent student2_data;
     RegisterForCourse 1 1; RegisterForCourse 2 1;
     SetGrade 1 1 Excellent 1700000000001;
     CalculateAverageGrade 1]
    new_UniversityManagementSystem
  = [Returned (VCourse (Course.mk 1 "Seminar" Optional 2 First Computer_Science 1));
     Returned (VStudent student1); Returned (VStudent student2);
     Returned VVoid; Thrown CourseFull;
     Returned VVoid;
     Returned (VNumber (5 # 1))].
Proof. reflexivity. Qed.

(** * Further properties of the methods *)

(** Projections of a written state, and nothing else, computed. *)
Ltac fields :=
  cbn [students courses grades courseRegistrations nextStudentId nextCourseId
       set_students set_courses set_grades set_courseRegistrations
       with_registration with_grade].

Ltac fields_in H :=
  cbn [students courses grades courseRegistrations nextStudentId nextCourseId
       set_students set_courses set_grades set_courseRegistrations
       with_registration with_grade] in H.

(** ** Lookups across a step *)

Lemma find_app_some {A} (p : A -> bool) (l l' : list A) (x : A) :
  find p l = Some x -> find p (l ++ l') = Some x.
Proof.
  induction l as [|a l IH]; simpl; [discriminate|].
  destruct (p a); [tauto|exact IH].
Qed.

Lemma find_app_none {A} (p : A -> bool) (l l' : list A) :
  find p l = None -> find p (l ++ l') = find p l'.
Proof.
  induction l as [|a l IH]; simpl; [reflexivity|].
  destruct (p a); [discriminate|exact IH].
Qed.

Lemma find_app_other {A} (p : A -> bool) (l : list A) (x : A) :
  p x = false -> find p (l ++ [x]) = find p l.
Proof.
  intros Hx. destruct (find p l) as [y|] eqn:E.
  - now apply find_app_some.
  - rewrite (find_app_none p l [x] E). simpl. now rewrite Hx.
Qed.

Lemma find_assign_status_same (studentId : Z) (newStatus : StudentStatus)
    (l : list Student.t) (s : Student.t) :
  find (fun x => Student.id x =? studentId) l = Some s ->
  find (fun x => Student.id x =? studentId) (assign_status studentId newStatus l)
  = Some (Student.set_status newStatus s).
Proof.
  induction l as [|a l IH]; simpl; [discriminate|].
  destruct (Student.id a =? studentId) eqn:E.
  - intros [= ->]. simpl. now rewrite E.
  - intros H. simpl. rewrite E. now apply IH.
Qed.

Lemma find_assign_status_other (studentId studentId' : Z) (newStatus : StudentStatus)
    (l : list Student.t) :
  studentId' <> studentId ->
  find (fun x => Student.id x =? studentId') (assign_status studentId newStatus l)
  = find (fun x => Student.id x =? studentId') l.
Proof.
  intros Hne. induction l as [|a l IH]; simpl; [reflexivity|].
  destruct (Z.eqb_spec (Student.id a) studentId) as [Heq|Hneq]; simpl.
  - destruct (Z.eqb_spec (Student.id a) studentId'); [congruence|reflexivity].
  - now rewrite IH.
Qed.

(** The record an id denotes stays the one it denotes, whatever is stored
    later under the same id; a step changes at most its status. *)
Lemma transition_student_lookup (u v : UniversityManagementSystem) (studentId : Z)
    (s : Student.t) :
  transition u v -> the_student u studentId = Some s ->
  exists s', the_student v studentId = Some s' /\ same_but_status s s'.
Proof.
  intros T Hs.
  destruct T as [ | s0 _ | c _ | sid cid s1 c _ _ _ _ | sid cid g now c _ _
                  | sid st s1 Hs1 _ ];
    try (exists s; split; [exact Hs|apply same_but_status_refl]).
  - exists s. split; [|apply same_but_status_refl].
    unfold the_student in *. fields. now apply find_app_some.
  - destruct (Z.eq_dec studentId sid) as [->|Hne].
    + exists (Student.set_status st s). split; [|apply same_but_status_set].
      unfold the_student in *. fields. now apply find_assign_status_same.
    + exists s. split; [|apply same_but_status_refl].
      unfold the_student in *. fields. now rewrite find_assign_status_other.
Qed.

Lemma transition_course_lookup (u v : UniversityManagementSystem) (courseId : Z)
    (c : Course.t) :
  transition u v -> the_course u courseId = Some c -> the_course v courseId = Some c.
Proof.
  intros T Hc. destruct (transition_courses u v T) as [added H].
  unfold the_course in *. rewrite H. now apply find_app_some.
Qed.

(** ** Consistency is kept *)

Lemma assign_status_ids (studentId : Z) (newStatus : StudentStatus) (l : list Student.t) :
  map Student.id (assign_status studentId newStatus l) = map Student.id l.
Proof.
  induction l as [|a l IH]; simpl; [reflexivity|].
  destruct (Student.id a =? studentId); simpl; [reflexivity|now rewrite IH].
Qed.

Lemma assign_status_length (studentId : Z) (newStatus : StudentStatus) (l : list Student.t) :
  length (assign_status studentId newStatus l) = length l.
Proof.
  rewrite <- (length_map Student.id), assign_status_ids. apply length_map.
Qed.

Lemma transition_counters_count (u v : UniversityManagementSystem) :
  transition u v -> counters_count u -> counters_count v.
Proof.
  unfold counters_count.
  intros [ | s _ | c _ | sid cid s c _ _ _ _ | sid cid g now c _ _ | sid st s _ _ ]
    [Hs Hc]; fields; try (split; assumption).
  - rewrite length_app, Nat.add_1_r. split; [lia|exact Hc].
  - rewrite length_app, Nat.add_1_r. split; [exact Hs|lia].
  - rewrite assign_status_length. now split.
Qed.

Lemma transition_match_faculty (u v : UniversityManagementSystem) :
  transition u v -> registrations_match_faculty u -> registrations_match_faculty v.
Proof.
  intros T H reg Hin.
  assert (Hu : exists s c,
             the_student u (Registration.studentId reg) = Some s /\
             the_course u (Registration.courseId reg) = Some c /\
             Student.faculty s = Course.faculty c).
  { destruct T as [ | s _ | c _ | sid cid s c Hs Hc _ Hf | sid cid g now c _ _
                    | sid st s _ _ ]; fields_in Hin; try (now apply H).
    apply in_app_or in Hin. destruct Hin as [Hin|[<-|[]]]; [now apply H|].
    exists s, c. simpl. tauto. }
  destruct Hu as (s & c & Hs & Hc & Hf).
  destruct (transition_student_lookup u v _ s T Hs) as (s' & Hs' & _ & _ & Hfac & _).
  exists s', c. split; [exact Hs'|].
  split; [now apply (transition_course_lookup u v)|congruence].
Qed.

Lemma transition_grade_semester (u v : UniversityManagementSystem) :
  transition u v -> grades_carry_semester u -> grades_carry_semester v.
Proof.
  intros T H g Hin.
  assert (Hu : exists c, the_course u (StudentGrade.courseId g) = Some c /\
                         StudentGrade.semester g = Course.semester c).
  { destruct T as [ | s _ | c _ | sid cid s c _ _ _ _ | sid cid gr now c _ Hc
                    | sid st s _ _ ]; fields_in Hin; try (now apply H).
    apply in_app_or in Hin. destruct Hin as [Hin|[<-|[]]]; [now apply H|].
    exists c. simpl. tauto. }
  destruct Hu as (c & Hc & Hsem).
  exists c. split; [now apply (transition_course_lookup u v)|exact Hsem].
Qed.

Lemma registration_count_other (u : UniversityManagementSystem)
    (studentId courseId courseId' : Z) :
  courseId' <> courseId ->
  registration_count (with_registration u studentId courseId) courseId'
  = registration_count u courseId'.
Proof.
  intros Hne. unfold registration_count, with_registration. fields.
  rewrite count_for_course_app. simpl.
  destruct (Z.eqb_spec courseId courseId'); [congruence|lia].
Qed.

Lemma transition_within_capacity (u v : UniversityManagementSystem) :
  transition u v -> within_capacity u -> within_capacity v.
Proof.
  intros T Hcap.
  destruct T as [ | s _ | c0 _ | sid cid s c _ Hc Hn _ | sid cid g now c _ _
                  | sid st s _ _ ]; try exact Hcap.
  - intros cid. specialize (Hcap cid). unfold the_course in *.
    change (registration_count
              (mkUMS (students u) (courses u ++ [c0]) (grades u) (courseRegistrations u)
                 (nextStudentId u) (nextCourseId u + 1)) cid)
      with (registration_count u cid).
    fields. destruct (find _ (courses u)) as [c|] eqn:E.
    + now rewrite (find_app_some _ _ [c0] c E).
    + rewrite (find_app_none _ _ [c0] E). simpl.
      destruct (Course.id c0 =? cid); [lia|exact Hcap].
  - intros cid'. specialize (Hcap cid').
    change (the_course (with_registration u sid cid) cid') with (the_course u cid').
    destruct (Z.eq_dec cid' cid) as [->|Hne].
    + rewrite registration_count_with_registration. rewrite Hc in *. lia.
    + now rewrite registration_count_other.
Qed.

Lemma transition_consistent (u v : UniversityManagementSystem) :
  transition u v -> consistent u -> consistent v.
Proof.
  intros T (Hn & Hr & Hg & Hcap). split; [|split; [|split]].
  - now apply (transition_counters_count u v).
  - now apply (transition_match_faculty u v).
  - now apply (transition_grade_semester u v).
  - now apply (transition_within_capacity u v).
Qed.

Lemma new_consistent : consistent new_UniversityManagementSystem.
Proof.
  split; [split; reflexivity|]. split; [intros x []|]. split; [intros x []|].
  intros cid. reflexivity.
Qed.

Lemma consistent_after (cs : list Call) :
  consistent (state_after cs new_UniversityManagementSystem).
Proof. apply (after_calls consistent transition_consistent), new_consistent. Qed.

Lemma referential_integrity_after (cs : list Call) :
  referential_integrity (state_after cs new_UniversityManagementSystem).
Proof.
  apply (after_calls referential_integrity transition_referential_integrity).
  split; intros x [].
Qed.

(** ** The ids when no argument has one of its own *)

Lemma count_up_snoc (n : nat) (first : Z) :
  count_up first (S n) = count_up first n ++ [first + Z.of_nat n].
Proof.
  induction n as [|n IH] in first |- *.
  - simpl. now rewrite Z.add_0_r.
  - change (count_up first (S (S n))) with (first :: count_up (first + 1) (S n)).
    rewrite IH. replace (first + Z.of_nat (S n)) with (first + 1 + Z.of_nat n) by lia.
    reflexivity.
Qed.

Lemma count_up_upper (n : nat) (first x : Z) :
  In x (count_up first n) -> x < first + Z.of_nat n.
Proof.
  induction n as [|n IH] in first |- *; simpl; [tauto|].
  intros [<-|H]; [lia|]. apply IH in H. lia.
Qed.

Lemma step_weaken (u v : UniversityManagementSystem) : step true u v -> transition u v.
Proof.
  intros [ | s _ | c _ | sid cid s c Hs Hc Hn Hf | sid cid g now c Hr Hc | sid st s Hs Hg ].
  - apply t_unchanged.
  - apply t_enrollStudent. discriminate.
  - apply t_addCourse. discriminate.
  - now apply (t_registerForCourse false u sid cid s c).
  - now apply t_setGrade.
  - now apply (t_updateStudentStatus false u sid st s).
Qed.

Lemma call_plain_step (c : Call) (u : UniversityManagementSystem) :
  plain_call c -> step true u (snd (call c u)).
Proof.
  intros Hp.
  destruct c as [d|d|sid cid|sid cid g now|sid st|f|sid|f sem|sid|f];
    try apply t_unchanged.
  - apply (t_enrollStudent true u
             (Student.mk (spread_over_id (nextStudentId u) (StudentData.id d))
                (StudentData.fullName d) (StudentData.faculty d)
                (StudentData.year d) (StudentData.status d)
                (StudentData.enrollmentDate d) (StudentData.groupNumber d))).
    intros _. simpl in Hp |- *. now rewrite Hp.
  - apply (t_addCourse true u
             (Course.mk (spread_over_id (nextCourseId u) (CourseData.id d))
                (CourseData.name d) (CourseData.type d)
                (CourseData.credits d) (CourseData.semester d)
                (CourseData.faculty d) (CourseData.maxStudents d))).
    intros _. simpl in Hp |- *. now rewrite Hp.
  - rewrite call_RegisterForCourse, registerForCourse_eq.
    destruct (the_student u sid) as [s|] eqn:Hs; [|apply t_unchanged].
    destruct (the_course u cid) as [c|] eqn:Hc; [|apply t_unchanged].
    destruct (Z.geb_spec (registration_count u cid) (Course.maxStudents c));
      [apply t_unchanged|].
    destruct (Faculty_eqb _ _) eqn:Hf; [|apply t_unchanged].
    apply Faculty_eqb_eq in Hf. now apply (t_registerForCourse true u sid cid s c).
  - rewrite call_SetGrade, setGrade_eq.
    destruct (existsb _ _) eqn:Hr; [|apply t_unchanged].
    apply registered_existsb in Hr.
    destruct (the_course u cid) as [c|] eqn:Hc; [|apply t_unchanged].
    now apply t_setGrade.
  - rewrite call_UpdateStudentStatus, updateStudentStatus_eq.
    destruct (the_student u sid) as [s|] eqn:Hs; [|apply t_unchanged].
    destruct (StudentStatus_eqb (Student.status s) Expelled
              && negb (StudentStatus_eqb st Expelled)) eqn:E; [apply t_unchanged|].
    apply (t_updateStudentStatus true u sid st s Hs).
    intros Hx. rewrite Hx in E. simpl in E. apply negb_false_iff in E.
    now apply StudentStatus_eqb_eq.
Qed.

Lemma step_student_ids (u v : UniversityManagementSystem) :
  step true u v -> counters_count u ->
  student_ids_consecutive u -> student_ids_consecutive v.
Proof.
  unfold student_ids_consecutive.
  intros [ | s Hs | c _ | sid cid s c _ _ _ _ | sid cid g now c _ _ | sid st s _ _ ]
    [Hn _] Hids; fields; try assumption.
  - rewrite map_app, length_app, Nat.add_1_r, count_up_snoc, <- Hids. cbn [map].
    do 2 f_equal. rewrite (Hs eq_refl). exact Hn.
  - now rewrite assign_status_ids, assign_status_length.
Qed.

Lemma step_course_ids (u v : UniversityManagementSystem) :
  step true u v -> counters_count u ->
  course_ids_consecutive u -> course_ids_consecutive v.
Proof.
  unfold course_ids_consecutive.
  intros [ | s _ | c Hc | sid cid s c _ _ _ _ | sid cid g now c _ _ | sid st s _ _ ]
    [_ Hn] Hids; fields; try assumption.
  rewrite map_app, length_app, Nat.add_1_r, count_up_snoc, <- Hids. cbn [map].
  do 2 f_equal. rewrite (Hc eq_refl). exact Hn.
Qed.

Lemma ids_consecutive_after (cs : list Call) :
  Forall plain_call cs ->
  student_ids_consecutive (state_after cs new_UniversityManagementSystem) /\
  course_ids_consecutive (state_after cs new_UniversityManagementSystem).
Proof.
  assert (H : forall u,
             Forall plain_call cs ->
             consistent u /\ student_ids_consecutive u /\ course_ids_consecutive u ->
             consistent (state_after cs u) /\
             student_ids_consecutive (state_after cs u) /\
             course_ids_consecutive (state_after cs u)).
  { induction cs as [|c cs IH]; intros u Hp Hu; [exact Hu|].
    inversion Hp as [|c' cs' Hc Hcs]; subst.
    rewrite state_after_cons. apply (IH _ Hcs).
    destruct Hu as (Hcons & Hs & Hc').
    pose proof (call_plain_step c u Hc) as T.
    split; [apply (transition_consistent u); [now apply step_weaken|exact Hcons]|].
    destruct Hcons as (Hn & _).
    split; [now apply (step_student_ids u)|now apply (step_course_ids u)]. }
  intros Hp. apply (H new_UniversityManagementSystem Hp).
  split; [apply new_consistent|]. split; reflexivity.
Qed.

(** In a list whose keys are all different, [find] by the key of an element
    returns that element. *)
Lemma find_by_key {A} (key : A -> Z) (l : list A) (s : A) :
  NoDup (map key l) -> In s l -> find (fun x => key x =? key s) l = Some s.
Proof.
  induction l as [|a l IH]; simpl; [tauto|].
  intros Hnd Hin. inversion Hnd as [|k ks Hnot Hnd']; subst.
  destruct (Z.eqb_spec (key a) (key s)) as [Heq|Hne].
  - destruct Hin as [->|Hin]; [reflexivity|].
    exfalso. apply Hnot. rewrite Heq. now apply in_map.
  - destruct Hin as [->|Hin]; [contradiction|now apply IH].
Qed.

(** With consecutive ids the counter is the id of no stored record. *)
Lemma consecutive_student_fresh (u : UniversityManagementSystem) :
  counters_count u -> student_ids_consecutive u ->
  the_student u (nextStudentId u) = None.
Proof.
  intros [Hn _] Hids. apply find_none_iff. intros x Hx. apply Z.eqb_neq.
  apply (in_map Student.id) in Hx. rewrite Hids in Hx.
  apply count_up_upper in Hx. lia.
Qed.

Lemma consecutive_course_fresh (u : UniversityManagementSystem) :
  counters_count u -> course_ids_consecutive u ->
  the_course u (nextCourseId u) = None.
Proof.
  intros [_ Hn] Hids. apply find_none_iff. intros x Hx. apply Z.eqb_neq.
  apply (in_map Course.id) in Hx. rewrite Hids in Hx.
  apply count_up_upper in Hx. lia.
Qed.

(** ** The states of an object that started new *)

(** X1: in every state a new object reaches, [nextStudentId] is one more
    than the number of stored students.  When no call so far had an argument
    with an [id] of its own, the ids of the stored students are 1, 2, ... in
    the order of the list, no two stored students share an id, and looking a
    stored student up by its id returns that very record. *)
Theorem stored_student_ids (cs : list Call) :
  nextStudentId (state_after cs new_UniversityManagementSystem)
  = 1 + Z.of_nat (length (students (state_after cs new_UniversityManagementSystem))) /\
  (Forall plain_call cs ->
   map Student.id (students (state_after cs new_UniversityManagementSystem))
   = count_up 1 (length (students (state_after cs new_UniversityManagementSystem))) /\
   NoDup (map Student.id (students (state_after cs new_UniversityManagementSystem))) /\
   (forall s, In s (students (state_after cs new_UniversityManagementSystem)) ->
              the_student (state_after cs new_UniversityManagementSystem) (Student.id s)
              = Some s)).
Proof.
  destruct (consistent_after cs) as ([Hn _] & _). split; [exact Hn|].
  intros Hp. destruct (ids_consecutive_after cs Hp) as [Hs _].
  assert (Hnd : NoDup (map Student.id
                         (students (state_after cs new_UniversityManagementSystem)))).
  { rewrite Hs. apply sorted_lt_NoDup, count_up_sorted. }
  split; [exact Hs|]. split; [exact Hnd|].
  intros s Hin. now apply (find_by_key Student.id).
Qed.

Lemma stored_student_ids_witness :
  Forall plain_call [AddCourse course1_data; EnrollStudent student1_data;
                     EnrollStudent student2_data] /\
  map Student.id
    (students (state_after [AddCourse course1_data; EnrollStudent student1_data;
                            EnrollStudent student2_data]
                 new_UniversityManagementSystem)) = [1; 2].
Proof.
  assert (Hp : Forall plain_call [AddCourse course1_data; EnrollStudent student1_data;
                                  EnrollStudent student2_data])
    by (repeat constructor).
  split; [exact Hp|].
  destruct (stored_student_ids [AddCourse course1_data; EnrollStudent student1_data;
                                EnrollStudent student2_data]) as [_ H].
  destruct (H Hp) as [Hids _]. exact Hids.
Defined.

(** X2: the same for the stored courses and the course counter. *)
Theorem stored_course_ids (cs : list Call) :
  nextCourseId (state_after cs new_UniversityManagementSystem)
  = 1 + Z.of_nat (length (courses (state_after cs new_UniversityManagementSystem))) /\
  (Forall plain_call cs ->
   map Course.id (courses (state_after cs new_UniversityManagementSystem))
   = count_up 1 (length (courses (state_after cs new_UniversityManagementSystem))) /\
   NoDup (map Course.id (courses (state_after cs new_UniversityManagementSystem))) /\
   (forall c, In c (courses (state_after cs new_UniversityManagementSystem)) ->
              the_course (state_after cs new_UniversityManagementSystem) (Course.id c)
              = Some c)).
Proof.
  destruct (consistent_after cs) as ([_ Hn] & _). split; [exact Hn|].
  intros Hp. destruct (ids_consecutive_after cs Hp) as [_ Hc].
  assert (Hnd : NoDup (map Course.id
                         (courses (state_after cs new_UniversityManagementSystem)))).
  { rewrite Hc. apply sorted_lt_NoDup, count_up_sorted. }
  split; [exact Hc|]. split; [exact Hnd|].
  intros c Hin. now apply (find_by_key Course.id).
Qed.

Lemma stored_course_ids_witness :
  Forall plain_call [AddCourse course1_data; AddCourse small_course_data] /\
  map Course.id
    (courses (state_after [AddCourse course1_data; AddCourse small_course_data]
                new_UniversityManagementSystem)) = [1; 2].
Proof.
  assert (Hp : Forall plain_call [AddCourse course1_data; AddCourse small_course_data])
    by (repeat constructor).
  split; [exact Hp|].
  destruct (stored_course_ids [AddCourse course1_data; AddCourse small_course_data])
    as [_ H].
  destruct (H Hp) as [Hids _]. exact Hids.
Defined.

(** X3: in every state a new object reaches, the registrations with a course
    id are no more than the [maxStudents] of the course that the id denotes
    (the first stored with that id), none at all when that [maxStudents] is
    zero or negative, and none when the id denotes no course. *)
Theorem courses_never_overbooked (cs : list Call) (courseId : Z) :
  (forall c,
     the_course (state_after cs new_UniversityManagementSystem) courseId = Some c ->
     Z.of_nat (length (filter (fun reg => Registration.courseId reg =? courseId)
                         (courseRegistrations
                            (state_after cs new_UniversityManagementSystem))))
     <= Z.max 0 (Course.maxStudents c)) /\
  (the_course (state_after cs new_UniversityManagementSystem) courseId = None ->
   filter (fun reg => Registration.courseId reg =? courseId)
     (courseRegistrations (state_after cs new_UniversityManagementSystem)) = []).
Proof.
  destruct (consistent_after cs) as (_ & _ & _ & Hcap). specialize (Hcap courseId).
  unfold registration_count in Hcap. rewrite <- count_for_course_filter in Hcap.
  split.
  - intros c Hc. now rewrite Hc in Hcap.
  - intros Hc. rewrite Hc in Hcap.
    destruct (filter _ _); [reflexivity|simpl in Hcap; lia].
Qed.

Lemma courses_never_overbooked_witness :
  the_course ums_small_full 1
  = Some (Course.mk 1 "Seminar" Optional 2 First Computer_Science 1) /\
  Z.of_nat (length (filter (fun reg => Registration.courseId reg =? 1)
                      (courseRegistrations ums_small_full))) <= 1.
Proof.
  split; [reflexivity|].
  destruct (courses_never_overbooked
              [AddCourse small_course_data; EnrollStudent student1_data;
               RegisterForCourse 1 1] 1) as [H _].
  exact (H (Course.mk 1 "Seminar" Optional 2 First Computer_Science 1) eq_refl).
Defined.

(** X4: in every state a new object reaches, the student and the course of
    every registration are found by their ids and are of one faculty. *)
Theorem registrations_stay_within_a_faculty (cs : list Call) (reg : Registration.t) :
  In reg (courseRegistrations (state_after cs new_UniversityManagementSystem)) ->
  exists s c,
    the_student (state_after cs new_UniversityManagementSystem)
      (Registration.studentId reg) = Some s /\
    the_course (state_after cs new_UniversityManagementSystem)
      (Registration.courseId reg) = Some c /\
    Student.faculty s = Course.faculty c.
Proof.
  intros Hin. destruct (consistent_after cs) as (_ & Hr & _). now apply Hr.
Qed.

Lemma registrations_stay_within_a_faculty_witness :
  In (Registration.mk 1 1) (courseRegistrations ums_registered) /\
  exists s c,
    the_student ums_registered 1 = Some s /\ the_course ums_registered 1 = Some c /\
    Student.faculty s = Course.faculty c.
Proof.
  split; [left; reflexivity|].
  exact (registrations_stay_within_a_faculty
           [AddCourse course1_data; EnrollStudent student1_data; RegisterForCourse 1 1]
           (Registration.mk 1 1) (or_introl eq_refl)).
Defined.

(** X5: in every state a new object reaches, the course of every grade
    record is found by its id and the record carries that course's
    semester. *)
Theorem grades_carry_the_course_semester (cs : list Call) (g : StudentGrade.t) :
  In g (grades (state_after cs new_UniversityManagementSystem)) ->
  exists c,
    the_course (state_after cs new_UniversityManagementSystem)
      (StudentGrade.courseId g) = Some c /\
    StudentGrade.semester g = Course.semester c.
Proof.
  intros Hin. destruct (consistent_after cs) as (_ & _ & Hg & _). now apply Hg.
Qed.

Lemma grades_carry_the_course_semester_witness :
  In (StudentGrade.mk 1 1 Excellent 1700000000001 First) (grades ums_graded) /\
  exists c, the_course ums_graded 1 = Some c /\ First = Course.semester c.
Proof.
  split; [left; reflexivity|].
  exact (grades_carry_the_course_semester
           [AddCourse course1_data; EnrollStudent student1_data; RegisterForCourse 1 1;
            SetGrade 1 1 Excellent 1700000000001]
           (StudentGrade.mk 1 1 Excellent 1700000000001 First) (or_introl eq_refl)).
Defined.

(** X6: in every state a new object reaches, [setGrade] never throws
    [CourseNotFound]: it returns exactly when the pair is registered and
    throws [NotRegistered] otherwise. *)
Theorem setGrade_course_check_never_fires (cs : list Call) (studentId courseId : Z)
    (grade : Grade) (now : Date) :
  fst (setGrade studentId courseId grade now
         (state_after cs new_UniversityManagementSystem)) <> Thrown CourseNotFound /\
  (registered (state_after cs new_UniversityManagementSystem) studentId courseId
   <-> fst (setGrade studentId courseId grade now
              (state_after cs new_UniversityManagementSystem)) = Returned tt) /\
  (~ registered (state_after cs new_UniversityManagementSystem) studentId courseId
   <-> fst (setGrade studentId courseId grade now
              (state_after cs new_UniversityManagementSystem)) = Thrown NotRegistered).
Proof.
  destruct (consistent_after cs) as (_ & Hr & _).
  set (u := state_after cs new_UniversityManagementSystem) in *.
  rewrite setGrade_eq.
  destruct (existsb _ _) eqn:E.
  - apply registered_existsb in E.
    destruct (Hr _ E) as (_ & c & _ & Hfound & _). simpl in Hfound.
    rewrite Hfound. simpl.
    split; [discriminate|]. split; split; try tauto; try discriminate.
  - assert (Hn : ~ registered u studentId courseId).
    { intros H. apply registered_existsb in H. congruence. }
    simpl. split; [discriminate|]. split; split; try tauto; try discriminate.
Qed.

(** ** What each method can throw *)

(** X7: [registerForCourse] throws nothing but its four errors, [setGrade]
    nothing but [NotRegistered] and [CourseNotFound] (never
    [StudentNotFound], also for an id no student has), [updateStudentStatus]
    nothing but [StudentNotFound] and [ExpelledStatusChange], the first of
    them exactly when no student has the id; and no other method throws at
    all. *)
Theorem errors_by_method (u u' : UniversityManagementSystem) (e : Error) :
  (forall studentId courseId,
     registerForCourse studentId courseId u = (Thrown e, u') ->
     e = StudentNotFound \/ e = CourseNotFound \/ e = CourseFull \/ e = FacultyMismatch) /\
  (forall studentId courseId grade now,
     setGrade studentId courseId grade now u = (Thrown e, u') ->
     e = NotRegistered \/ e = CourseNotFound) /\
  (forall studentId newStatus,
     updateStudentStatus studentId newStatus u = (Thrown e, u') ->
     e = StudentNotFound \/ e = ExpelledStatusChange) /\
  (forall studentId newStatus,
     updateStudentStatus studentId newStatus u = (Thrown StudentNotFound, u)
     <-> ~ student_exists u studentId) /\
  (forall c,
     call c u = (Thrown e, u') ->
     (exists studentId courseId, c = RegisterForCourse studentId courseId) \/
     (exists studentId courseId grade now, c = SetGrade studentId courseId grade now) \/
     (exists studentId newStatus, c = UpdateStudentStatus studentId newStatus)).
Proof.
  split; [|split; [|split; [|split]]].
  - intros sid cid. rewrite registerForCourse_eq.
    destruct (the_student u sid); [|intros [= <- _]; tauto].
    destruct (the_course u cid); [|intros [= <- _]; tauto].
    destruct (_ >=? _); [intros [= <- _]; tauto|].
    destruct (Faculty_eqb _ _); [discriminate|intros [= <- _]; tauto].
  - intros sid cid g now. rewrite setGrade_eq.
    destruct (existsb _ _); [|intros [= <- _]; tauto].
    destruct (the_course u cid); [discriminate|intros [= <- _]; tauto].
  - intros sid st. rewrite updateStudentStatus_eq.
    destruct (the_student u sid); [|intros [= <- _]; tauto].
    destruct (_ && _); [intros [= <- _]; tauto|discriminate].
  - intros sid st. rewrite updateStudentStatus_eq, <- the_student_none.
    destruct (the_student u sid); [|tauto].
    destruct (_ && _); split; discriminate.
  - intros c.
    destruct c as [d|d|sid cid|sid cid g now|sid st|f|sid|f sem|sid|f];
      try (cbv [call read]; congruence).
    + cbv; congruence.
    + cbv; congruence.
    + intros _. left. now exists sid, cid.
    + intros _. right; left. now exists sid, cid, g, now.
    + intros _. right; right. now exists sid, st.
Qed.

Lemma errors_by_method_witness :
  setGrade 7 1 Excellent 0 ums_registered = (Thrown NotRegistered, ums_registered) /\
  (NotRegistered = NotRegistered \/ NotRegistered = CourseNotFound).
Proof.
  split; [reflexivity|].
  destruct (errors_by_method ums_registered ums_registered NotRegistered) as (_ & H & _).
  exact (H 7 1 Excellent 0 eq_refl).
Defined.

(** ** How the methods compose *)

(** X8: in any state, when [registerForCourse] returns for a pair, a
    [setGrade] for that pair right after it returns as well. *)
Theorem register_then_setGrade (u : UniversityManagementSystem) (studentId courseId : Z)
    (grade : Grade) (now : Date) :
  fst (registerForCourse studentId courseId u) = Returned tt ->
  fst (setGrade studentId courseId grade now
         (snd (registerForCourse studentId courseId u))) = Returned tt.
Proof.
  rewrite registerForCourse_eq.
  destruct (the_student u studentId) as [s|]; [|discriminate].
  destruct (the_course u courseId) as [c|] eqn:Hc; [|discriminate].
  destruct (_ >=? _); [discriminate|].
  destruct (Faculty_eqb _ _); [|discriminate].
  intros _. cbn [snd].
  rewrite (setGrade_accepts _ studentId courseId grade now c); [reflexivity| |exact Hc].
  unfold registered, with_registration. fields. apply in_or_app. right. now left.
Qed.

Lemma register_then_setGrade_witness :
  fst (registerForCourse 1 1 ums_seeded) = Returned tt /\
  fst (setGrade 1 1 Good 5 (snd (registerForCourse 1 1 ums_seeded))) = Returned tt.
Proof.
  split; [reflexivity|].
  exact (register_then_setGrade ums_seeded 1 1 Good 5 eq_refl).
Defined.

(** X9: in any state, after an [updateStudentStatus] that is allowed, the id
    denotes the same record with the new status, and every other id denotes
    what it denoted before. *)
Theorem updateStudentStatus_then_lookup (u : UniversityManagementSystem)
    (studentId : Z) (newStatus : StudentStatus) (s : Student.t) :
  the_student u studentId = Some s ->
  Student.status s <> Expelled \/ newStatus = Expelled ->
  fst (updateStudentStatus studentId newStatus u) = Returned tt /\
  the_student (snd (updateStudentStatus studentId newStatus u)) studentId
  = Some (Student.mk (Student.id s) (Student.fullName s) (Student.faculty s)
            (Student.year s) newStatus (Student.enrollmentDate s)
            (Student.groupNumber s)) /\
  (forall studentId', studentId' <> studentId ->
     the_student (snd (updateStudentStatus studentId newStatus u)) studentId'
     = the_student u studentId').
Proof.
  intros Hs Hok. rewrite updateStudentStatus_eq, Hs.
  assert (E : StudentStatus_eqb (Student.status s) Expelled
              && negb (StudentStatus_eqb newStatus Expelled) = false).
  { destruct (StudentStatus_eqb (Student.status s) Expelled) eqn:E1; [|reflexivity].
    apply StudentStatus_eqb_eq in E1. destruct Hok as [Hok|Hok]; [contradiction|].
    apply StudentStatus_eqb_eq in Hok. now rewrite Hok. }
  rewrite E. cbn [fst snd]. split; [reflexivity|]. split.
  - unfold the_student in *. fields.
    now rewrite (find_assign_status_same studentId newStatus (students u) s Hs).
  - intros sid' Hne. unfold the_student. fields.
    now apply find_assign_status_other.
Qed.

Lemma updateStudentStatus_then_lookup_witness :
  the_student ums_seeded 1 = Some student1 /\
  the_student (snd (updateStudentStatus 1 Graduated ums_seeded)) 1
  = Some (Student.mk 1 "Іван Іванов" Computer_Science 1 Graduated 1700000000000 "CS-101").
Proof.
  split; [reflexivity|].
  destruct (updateStudentStatus_then_lookup ums_seeded 1 Graduated student1 eq_refl)
    as (_ & H & _); [left; discriminate|exact H].
Defined.


(** ** Creating a record and looking it up *)

(** X10: [enrollStudent] returns a record with the six fields of its argument
    and, as id, the argument's own [id] if it has one and the counter's value
    otherwise.  Right after, every other id denotes what it denoted before,
    the record is the last of its faculty's students, and its id denotes the
    record itself unless a student with that id was stored already, who then
    stays the one the id denotes.  In a state a new object reached by calls
    whose arguments had no [id] of their own, an argument without [id] gets
    the counter's value, which denotes the returned record. *)
Theorem enrollStudent_then_lookup (cs : list Call) (student : StudentData.t) :
  exists s,
    fst (enrollStudent student (state_after cs new_UniversityManagementSystem))
    = Returned s /\
    s = Student.mk
          (match StudentData.id student with
           | Some own => own
           | None => nextStudentId (state_after cs new_UniversityManagementSystem)
           end)
          (StudentData.fullName student) (StudentData.faculty student)
          (StudentData.year student) (StudentData.status student)
          (StudentData.enrollmentDate student) (StudentData.groupNumber student) /\
    the_student
      (snd (enrollStudent student (state_after cs new_UniversityManagementSystem)))
      (Student.id s)
    = match the_student (state_after cs new_UniversityManagementSystem) (Student.id s)
      with
      | Some earlier => Some earlier
      | None => Some s
      end /\
    (forall studentId, studentId <> Student.id s ->
       the_student
         (snd (enrollStudent student (state_after cs new_UniversityManagementSystem)))
         studentId
       = the_student (state_after cs new_UniversityManagementSystem) studentId) /\
    getStudentsByFaculty
      (snd (enrollStudent student (state_after cs new_UniversityManagementSystem)))
      (StudentData.faculty student)
    = getStudentsByFaculty (state_after cs new_UniversityManagementSystem)
        (StudentData.faculty student) ++ [s] /\
    (Forall plain_call cs -> StudentData.id student = None ->
     Student.id s = nextStudentId (state_after cs new_UniversityManagementSystem) /\
     the_student
       (snd (enrollStudent student (state_after cs new_UniversityManagementSystem)))
       (Student.id s) = Some s).
Proof.
  destruct (consistent_after cs) as (Hn & _).
  pose proof (ids_consecutive_after cs) as Hids.
  set (u := state_after cs new_UniversityManagementSystem) in *.
  eexists. split; [reflexivity|]. split; [reflexivity|].
  cbn [snd enrollStudent bind read write ret]. unfold the_student, getStudentsByFaculty.
  fields.
  assert (Hlook : forall sid s0,
             Student.id s0 = sid ->
             find (fun x => Student.id x =? sid) (students u ++ [s0])
             = match find (fun x => Student.id x =? sid) (students u) with
               | Some earlier => Some earlier
               | None => Some s0
               end).
  { intros sid s0 Hid. destruct (find _ (students u)) as [y|] eqn:E.
    - now apply find_app_some.
    - rewrite (find_app_none _ _ [s0] E). simpl. rewrite Hid. now rewrite Z.eqb_refl. }
  split; [now apply Hlook|]. split; [|split].
  - intros sid Hne. apply find_app_other. apply Z.eqb_neq. simpl in *. congruence.
  - rewrite filter_app. simpl.
    assert (E : Faculty_eqb (StudentData.faculty student) (StudentData.faculty student)
                = true) by now apply Faculty_eqb_eq.
    now rewrite E.
  - intros Hp Hnone. destruct (Hids Hp) as [Hs _].
    split; [cbn [Student.id]; now rewrite Hnone|].
    rewrite (Hlook _ _ eq_refl).
    pose proof (consecutive_student_fresh u Hn Hs) as Hfresh.
    unfold the_student in Hfresh. cbn [Student.id]. rewrite Hnone.
    cbn [spread_over_id]. now rewrite Hfresh.
Qed.

(** X11: [addCourse] returns a record with the six fields of its argument
    and, as id, the argument's own [id] if it has one and the counter's value
    otherwise.  Right after, every other id denotes what it denoted before
    and the registrations are untouched.  In a state a new object has
    reached, when the id denoted no course before, it denotes the returned
    course, which has no registration; that is the case for an argument
    without [id] after calls whose arguments had none. *)
Theorem addCourse_then_lookup (cs : list Call) (course : CourseData.t) :
  exists c,
    fst (addCourse course (state_after cs new_UniversityManagementSystem))
    = Returned c /\
    c = Course.mk
          (match CourseData.id course with
           | Some own => own
           | None => nextCourseId (state_after cs new_UniversityManagementSystem)
           end)
          (CourseData.name course) (CourseData.type course)
          (CourseData.credits course) (CourseData.semester course)
          (CourseData.faculty course) (CourseData.maxStudents course) /\
    (forall courseId, courseId <> Course.id c ->
       the_course
         (snd (addCourse course (state_after cs new_UniversityManagementSystem)))
         courseId
       = the_course (state_after cs new_UniversityManagementSystem) courseId) /\
    courseRegistrations
      (snd (addCourse course (state_after cs new_UniversityManagementSystem)))
    = courseRegistrations (state_after cs new_UniversityManagementSystem) /\
    (the_course (state_after cs new_UniversityManagementSystem) (Course.id c) = None ->
     the_course
       (snd (addCourse course (state_after cs new_UniversityManagementSystem)))
       (Course.id c) = Some c /\
     registration_count
       (snd (addCourse course (state_after cs new_UniversityManagementSystem)))
       (Course.id c) = 0) /\
    (Forall plain_call cs -> CourseData.id course = None ->
     Course.id c = nextCourseId (state_after cs new_UniversityManagementSystem) /\
     the_course (state_after cs new_UniversityManagementSystem) (Course.id c) = None).
Proof.
  destruct (consistent_after cs) as (Hn & _ & _ & Hcap).
  pose proof (ids_consecutive_after cs) as Hids.
  set (u := state_after cs new_UniversityManagementSystem) in *.
  eexists. split; [reflexivity|]. split; [reflexivity|].
  cbn [snd addCourse bind read write ret]. split; [|split; [reflexivity|split]].
  - intros cid Hne. unfold the_course. fields.
    apply find_app_other. apply Z.eqb_neq. simpl in *. congruence.
  - intros Hnone. split.
    + unfold the_course in *. fields.
      rewrite (find_app_none _ _ _ Hnone). simpl. now rewrite Z.eqb_refl.
    + specialize (Hcap (Course.id
                          (Course.mk (spread_over_id (nextCourseId u) (CourseData.id course))
                             (CourseData.name course) (CourseData.type course)
                             (CourseData.credits course) (CourseData.semester course)
                             (CourseData.faculty course) (CourseData.maxStudents course)))).
      rewrite Hnone in Hcap. exact Hcap.
  - intros Hp Hnone. destruct (Hids Hp) as [_ Hc]. cbn [Course.id]. rewrite Hnone.
    cbn [spread_over_id]. split; [reflexivity|].
    now apply consecutive_course_fresh.
Qed.

(** ** Registrations are never removed *)

Lemma count_for_course_nonneg (courseId : Z) (l : list Registration.t) :
  0 <= count_for_course courseId l.
Proof.
  induction l as [|reg l IH]; simpl; [lia|].
  destruct (Registration.courseId reg =? courseId); lia.
Qed.

Lemma registrations_after (cs : list Call) (u : UniversityManagementSystem) :
  exists added,
    courseRegistrations (state_after cs u) = courseRegistrations u ++ added.
Proof.
  refine (across_calls
            (fun u w => exists added, courseRegistrations w = courseRegistrations u ++ added)
            _ _ cs u).
  - intros v. exists []. now rewrite app_nil_r.
  - intros a b w Hab [l2 Hbw]. destruct (transition_registrations a b Hab) as [l1 H1].
    exists (l1 ++ l2). now rewrite Hbw, H1, app_assoc.
Qed.

(** X12: across every sequence of calls, from any state, the registrations
    list only grows at its end: a registered pair stays registered and the
    number of registrations of a course never goes down. *)
Theorem registrations_only_grow (cs : list Call) (u : UniversityManagementSystem) :
  (exists added,
     courseRegistrations (state_after cs u) = courseRegistrations u ++ added) /\
  (forall studentId courseId,
     registered u studentId courseId -> registered (state_after cs u) studentId courseId) /\
  (forall courseId,
     registration_count u courseId <= registration_count (state_after cs u) courseId).
Proof.
  destruct (registrations_after cs u) as [added H].
  split; [now exists added|]. split.
  - intros sid cid Hr. unfold registered. rewrite H. apply in_or_app. now left.
  - intros cid. unfold registration_count. rewrite H, count_for_course_app.
    pose proof (count_for_course_nonneg cid added). lia.
Qed.


(** ** The listing queries *)

Lemma sorted_map_filter {A} (key : A -> Z) (p : A -> bool) (l : list A) :
  StronglySorted Z.lt (map key l) -> StronglySorted Z.lt (map key (filter p l)).
Proof.
  induction l as [|a l IH]; simpl; intros H; [constructor|].
  inversion H as [|k ks Hs Hall]; subst.
  destruct (p a); simpl; [|now apply IH].
  constructor; [now apply IH|].
  rewrite Forall_forall in Hall |- *. intros x Hx. apply Hall.
  apply in_map_iff in Hx. destruct Hx as (y & <- & Hy).
  apply filter_In in Hy. now apply in_map.
Qed.

Lemma assign_status_faculty_ids (studentId : Z) (newStatus : StudentStatus)
    (faculty : Faculty) (l : list Student.t) :
  map Student.id
    (filter (fun s => Faculty_eqb (Student.faculty s) faculty)
       (assign_status studentId newStatus l))
  = map Student.id (filter (fun s => Faculty_eqb (Student.faculty s) faculty) l).
Proof.
  induction l as [|a l IH]; simpl; [reflexivity|].
  destruct (Student.id a =? studentId); simpl.
  - destruct (Faculty_eqb (Student.faculty a) faculty); reflexivity.
  - destruct (Faculty_eqb (Student.faculty a) faculty); simpl; now rewrite IH.
Qed.

Lemma transition_faculty_ids (u v : UniversityManagementSystem) (faculty : Faculty) :
  transition u v ->
  exists later,
    map Student.id (getStudentsByFaculty v faculty)
    = map Student.id (getStudentsByFaculty u faculty) ++ later.
Proof.
  unfold getStudentsByFaculty.
  intros [ | s _ | c _ | sid cid s c _ _ _ _ | sid cid g now c _ _ | sid st s _ _ ];
    fields; try (exists []; now rewrite app_nil_r).
  - rewrite filter_app, map_app. eexists; reflexivity.
  - exists []. now rewrite app_nil_r, assign_status_faculty_ids.
Qed.

Lemma faculty_partition (l : list Student.t) :
  (length (filter (fun s => Faculty_eqb (Student.faculty s) Computer_Science) l)
   + length (filter (fun s => Faculty_eqb (Student.faculty s) Economics) l)
   + length (filter (fun s => Faculty_eqb (Student.faculty s) Law) l)
   + length (filter (fun s => Faculty_eqb (Student.faculty s) Engineering) l)
   = length l)%nat.
Proof.
  induction l as [|a l IH]; [reflexivity|].
  cbn [filter]. destruct (Student.faculty a); simpl; lia.
Qed.

(** X13: [getStudentsByFaculty] returns exactly the stored students of the
    faculty, and the four faculties' lists together have as many elements as
    the students list.  Across every sequence of calls the ids of a
    faculty's list stay as they are and in place, new ones coming at the end;
    for an object that started new and was called with arguments that had no
    [id] of their own, they are in ascending order. *)
Theorem getStudentsByFaculty_lists_the_faculty
    (cs : list Call) (u : UniversityManagementSystem) (faculty : Faculty) :
  (forall s, In s (getStudentsByFaculty u faculty)
             <-> In s (students u) /\ Student.faculty s = faculty) /\
  (length (getStudentsByFaculty u Computer_Science)
   + length (getStudentsByFaculty u Economics)
   + length (getStudentsByFaculty u Law)
   + length (getStudentsByFaculty u Engineering)
   = length (students u))%nat /\
  (exists later,
     map Student.id (getStudentsByFaculty (state_after cs u) faculty)
     = map Student.id (getStudentsByFaculty u faculty) ++ later) /\
  (Forall plain_call cs ->
   StronglySorted Z.lt
     (map Student.id
        (getStudentsByFaculty (state_after cs new_UniversityManagementSystem) faculty))).
Proof.
  split; [intros s; apply getStudentsByFaculty_In|].
  split; [apply faculty_partition|]. split.
  - refine (across_calls
              (fun u w => exists later,
                   map Student.id (getStudentsByFaculty w faculty)
                   = map Student.id (getStudentsByFaculty u faculty) ++ later)
              _ _ cs u).
    + intros v. exists []. now rewrite app_nil_r.
    + intros a b w Hab [l2 Hbw].
      destruct (transition_faculty_ids a b faculty Hab) as [l1 H1].
      exists (l1 ++ l2). now rewrite Hbw, H1, app_assoc.
  - intros Hp. apply sorted_map_filter. destruct (ids_consecutive_after cs Hp) as [-> _].
    apply count_up_sorted.
Qed.

Lemma courses_after (cs : list Call) (u : UniversityManagementSystem) :
  exists added, courses (state_after cs u) = courses u ++ added.
Proof.
  refine (across_calls (fun u w => exists added, courses w = courses u ++ added) _ _ cs u).
  - intros v. exists []. now rewrite app_nil_r.
  - intros a b w Hab [l2 Hbw]. destruct (transition_courses a b Hab) as [l1 H1].
    exists (l1 ++ l2). now rewrite Hbw, H1, app_assoc.
Qed.

(** X14: [getAvailableCourses] returns exactly the stored courses of the
    faculty and the semester.  Across every sequence of calls its result
    keeps the records it had, unchanged and in place, new ones coming at the
    end; for an object that started new and was called with arguments that
    had no [id] of their own, the ids are in ascending order. *)
Theorem getAvailableCourses_lists_the_offer
    (cs : list Call) (u : UniversityManagementSystem) (faculty : Faculty)
    (semester : Semester) :
  (forall c, In c (getAvailableCourses u faculty semester)
             <-> In c (courses u) /\ Course.faculty c = faculty /\
                 Course.semester c = semester) /\
  (exists later,
     getAvailableCourses (state_after cs u) faculty semester
     = getAvailableCourses u faculty semester ++ later) /\
  (Forall plain_call cs ->
   StronglySorted Z.lt
     (map Course.id
        (getAvailableCourses (state_after cs new_UniversityManagementSystem)
           faculty semester))).
Proof.
  split; [|split].
  - intros c. unfold getAvailableCourses.
    rewrite filter_In, andb_true_iff, Faculty_eqb_eq.
    assert (H : Semester_eqb (Course.semester c) semester = true
                <-> Course.semester c = semester).
    { destruct (Course.semester c), semester; unfold Semester_eqb; simpl;
        split; congruence. }
    rewrite H. tauto.
  - destruct (courses_after cs u) as [added H]. unfold getAvailableCourses.
    rewrite H, filter_app. eexists; reflexivity.
  - intros Hp. apply sorted_map_filter. destruct (ids_consecutive_after cs Hp) as [_ ->].
    apply count_up_sorted.
Qed.

Lemma grades_after (cs : list Call) (u : UniversityManagementSystem) :
  exists added, grades (state_after cs u) = grades u ++ added.
Proof.
  refine (across_calls (fun u w => exists added, grades w = grades u ++ added) _ _ cs u).
  - intros v. exists []. now rewrite app_nil_r.
  - intros a b w Hab [l2 Hbw]. destruct (transition_grades a b Hab) as [l1 H1].
    exists (l1 ++ l2). now rewrite Hbw, H1, app_assoc.
Qed.

Lemma grade_sum_app (l l' : list StudentGrade.t) :
  grade_sum (l ++ l') = grade_sum l + grade_sum l'.
Proof. induction l as [|g l IH]; simpl; lia. Qed.

(** X15: across every sequence of calls, from any state, the grades of a
    student keep the records they had, new ones coming at the end.  A
    [setGrade] that returns adds one record with the given grade to the
    student's grades, so that the average becomes the old sum plus the grade
    divided, in binary64 arithmetic, by the old number plus one; a [setGrade]
    for another student changes neither the student's grades nor the
    average. *)
Theorem getStudentGrades_grow
    (cs : list Call) (u : UniversityManagementSystem) (studentId : Z) :
  (exists later,
     getStudentGrades (state_after cs u) studentId
     = getStudentGrades u studentId ++ later) /\
  (forall courseId grade now,
     fst (setGrade studentId courseId grade now u) = Returned tt ->
     (exists semester,
        getStudentGrades (snd (setGrade studentId courseId grade now u)) studentId
        = getStudentGrades u studentId
          ++ [StudentGrade.mk studentId courseId grade now semester]) /\
     calculateAverageGrade (snd (setGrade studentId courseId grade now u)) studentId
     = number_div (grade_sum (getStudentGrades u studentId) + Grade_value grade)
         (Z.of_nat (S (length (getStudentGrades u studentId))))) /\
  (forall studentId' courseId grade now,
     studentId' <> studentId ->
     getStudentGrades (snd (setGrade studentId' courseId grade now u)) studentId
     = getStudentGrades u studentId /\
     calculateAverageGrade (snd (setGrade studentId' courseId grade now u)) studentId
     = calculateAverageGrade u studentId).
Proof.
  split; [|split].
  - destruct (grades_after cs u) as [added H]. unfold getStudentGrades.
    rewrite H, filter_app. eexists; reflexivity.
  - intros cid g now. rewrite setGrade_eq.
    destruct (existsb _ _); [|discriminate].
    destruct (the_course u cid) as [c|]; [|discriminate]. intros _. cbn [snd].
    assert (H : getStudentGrades
                  (with_grade u (StudentGrade.mk studentId cid g now (Course.semester c)))
                  studentId
                = getStudentGrades u studentId
                  ++ [StudentGrade.mk studentId cid g now (Course.semester c)]).
    { unfold getStudentGrades. fields. rewrite filter_app. simpl.
      now rewrite Z.eqb_refl. }
    split; [now exists (Course.semester c)|].
    rewrite calculateAverageGrade_nonempty, H; [|rewrite H; now destruct (getStudentGrades u studentId)].
    rewrite grade_sum_app, length_app, Nat.add_1_r. simpl grade_sum.
    now rewrite Z.add_0_r.
  - intros sid' cid g now Hne.
    assert (H : getStudentGrades (snd (setGrade sid' cid g now u)) studentId
                = getStudentGrades u studentId).
    { rewrite setGrade_eq.
      destruct (existsb _ _); [|reflexivity].
      destruct (the_course u cid) as [c|]; [|reflexivity]. cbn [snd].
      unfold getStudentGrades. fields. rewrite filter_app. simpl.
      destruct (Z.eqb_spec sid' studentId); [contradiction|apply app_nil_r]. }
    split; [exact H|]. unfold calculateAverageGrade. now rewrite H.
Qed.

Lemma getStudentGrades_grow_witness :
  fst (setGrade 1 1 Good 7 ums_graded) = Returned tt /\
  calculateAverageGrade (snd (setGrade 1 1 Good 7 ums_graded)) 1 = number_div 9 2.
Proof.
  split; [reflexivity|].
  destruct (getStudentGrades_grow [] ums_graded 1) as (_ & H & _).
  destruct (H 1 Good 7 eq_refl) as [_ Havg]. exact Havg.
Defined.

(** ** The range of the average *)

Lemma average_bounds (u : UniversityManagementSystem) (studentId : Z) :
  getStudentGrades u studentId <> [] ->
  (2 <= calculateAverageGrade u studentId <= 5)%Q.
Proof.
  intros H. rewrite (calculateAverageGrade_nonempty u studentId H).
  apply nearest_double_range, mean_range, H.
Qed.

Lemma average_positive_iff (u : UniversityManagementSystem) (studentId : Z) :
  (0 < calculateAverageGrade u studentId)%Q <-> getStudentGrades u studentId <> [].
Proof.
  split.
  - intros Hpos Hnil. unfold calculateAverageGrade in Hpos. rewrite Hnil in Hpos.
    simpl in Hpos. now apply Qlt_irrefl in Hpos.
  - intros H. destruct (average_bounds u studentId H) as [Hlo _].
    apply (Qlt_le_trans _ 2); [reflexivity|exact Hlo].
Qed.

(** X16: the average of a student is 0 or lies between 2 and 5: it is
    positive exactly when the student has a grade record, and then it is at
    least 2 and at most 5. *)
Theorem calculateAverageGrade_range (u : UniversityManagementSystem) (studentId : Z) :
  (calculateAverageGrade u studentId = 0%Q
   \/ (2 <= calculateAverageGrade u studentId <= 5)%Q) /\
  ((0 < calculateAverageGrade u studentId)%Q <-> getStudentGrades u studentId <> []) /\
  ((0 < calculateAverageGrade u studentId)%Q ->
   (2 <= calculateAverageGrade u studentId <= 5)%Q).
Proof.
  split; [|split].
  - destruct (getStudentGrades u studentId) as [|g l] eqn:E.
    + left. unfold calculateAverageGrade. now rewrite E.
    + right. apply average_bounds. congruence.
  - apply average_positive_iff.
  - intros H. now apply average_bounds, average_positive_iff.
Qed.

(** ** The top students *)

Lemma exists_largest {A} (f : A -> Q) (l : list A) :
  l <> [] -> exists m, In m l /\ forall x, In x l -> (f x <= f m)%Q.
Proof.
  induction l as [|a l IH]; [congruence|]. intros _.
  destruct l as [|b l].
  - exists a. split; [now left|]. intros x [<-|[]]. apply Qle_refl.
  - destruct IH as (m & Hm & Hall); [discriminate|].
    destruct (Qlt_le_dec (f m) (f a)) as [Hlt|Hle].
    + exists a. split; [now left|]. intros x [<-|Hx]; [apply Qle_refl|].
      apply Qlt_le_weak in Hlt. apply (Qle_trans _ (f m)); [now apply Hall|exact Hlt].
    + exists m. split; [now right|]. intros x [<-|Hx]; [exact Hle|now apply Hall].
Qed.

(** X17: [getTopStudents] returns somebody exactly when a student of the
    faculty has a grade record.  The returned students all have the same
    average, each of them has a grade record, and the average is at least
    2. *)
Theorem getTopStudents_nonempty (u : UniversityManagementSystem) (faculty : Faculty) :
  (getTopStudents u faculty <> []
   <-> exists s, In s (students u) /\ Student.faculty s = faculty /\
                 getStudentGrades u (Student.id s) <> []) /\
  (forall s1 s2,
     In s1 (getTopStudents u faculty) -> In s2 (getTopStudents u faculty) ->
     (calculateAverageGrade u (Student.id s1)
      == calculateAverageGrade u (Student.id s2))%Q) /\
  (forall s, In s (getTopStudents u faculty) ->
     getStudentGrades u (Student.id s) <> [] /\
     (2 <= calculateAverageGrade u (Student.id s))%Q).
Proof.
  split; [|split].
  - split.
    + intros H. destruct (getTopStudents u faculty) as [|x l] eqn:E; [congruence|].
      assert (Hx : In x (getTopStudents u faculty)) by (rewrite E; now left).
      apply getTopStudents_In in Hx. destruct Hx as (Hin & Hf & Hpos & _).
      exists x. repeat split; try assumption. now apply average_positive_iff.
    + intros (s & Hin & Hf & Hg).
      assert (Hs : In s (getStudentsByFaculty u faculty))
        by now apply getStudentsByFaculty_In.
      destruct (exists_largest (fun x => calculateAverageGrade u (Student.id x))
                  (getStudentsByFaculty u faculty)) as (m & Hm & Hall).
      { intros E. rewrite E in Hs. destruct Hs. }
      assert (Htop : In m (getTopStudents u faculty)).
      { apply getTopStudents_In. apply getStudentsByFaculty_In in Hm.
        destruct Hm as [Hm1 Hm2]. repeat split; try assumption.
        - apply (Qlt_le_trans _ (calculateAverageGrade u (Student.id s)));
            [now apply average_positive_iff|now apply Hall].
        - intros s' Hin' Hf'. apply Hall. now apply getStudentsByFaculty_In. }
      intros E. rewrite E in Htop. destruct Htop.
  - intros s1 s2 H1 H2. apply getTopStudents_In in H1, H2.
    destruct H1 as (Hin1 & Hf1 & _ & Hall1). destruct H2 as (Hin2 & Hf2 & _ & Hall2).
    apply Qle_antisym; [now apply Hall2|now apply Hall1].
  - intros s Hs. apply getTopStudents_In in Hs. destruct Hs as (_ & _ & Hpos & _).
    apply average_positive_iff in Hpos. split; [exact Hpos|].
    now apply average_bounds.
Qed.


(** ** Two status updates in a row *)

Lemma assign_status_twice (studentId : Z) (a b : StudentStatus) (l : list Student.t) :
  assign_status studentId b (assign_status studentId a l) = assign_status studentId b l.
Proof.
  induction l as [|x l IH]; simpl; [reflexivity|].
  destruct (Student.id x =? studentId) eqn:E; simpl; rewrite E; [reflexivity|].
  now rewrite IH.
Qed.

(** X18: for a student who is not expelled, two status updates in a row, the
    first to a status other than [Expelled], both return and leave the state
    that the second update alone would leave. *)
Theorem updateStudentStatus_last_wins (u : UniversityManagementSystem) (studentId : Z)
    (a b : StudentStatus) (s : Student.t) :
  the_student u studentId = Some s ->
  Student.status s <> Expelled ->
  a <> Expelled ->
  run [UpdateStudentStatus studentId a; UpdateStudentStatus studentId b] u
  = ([Returned VVoid; Returned VVoid],
     state_after [UpdateStudentStatus studentId b] u).
Proof.
  intros Hs Hnot Ha.
  assert (Es : StudentStatus_eqb (Student.status s) Expelled = false).
  { destruct (StudentStatus_eqb _ _) eqn:E; [|reflexivity].
    apply StudentStatus_eqb_eq in E. contradiction. }
  assert (Ea : StudentStatus_eqb a Expelled = false).
  { destruct a; try reflexivity. contradiction. }
  assert (Hfound : the_student
                     (set_students (assign_status studentId a (students u)) u)
                     studentId = Some (Student.set_status a s)).
  { unfold the_student. fields. now apply find_assign_status_same. }
  rewrite run_cons, call_UpdateStudentStatus, updateStudentStatus_eq, Hs, Es.
  cbn [andb fst snd]. unfold results_of, state_after.
  rewrite !run_cons, !call_UpdateStudentStatus, !updateStudentStatus_eq.
  rewrite Hfound, Hs, Es. cbn [Student.status Student.set_status]. rewrite Ea.
  cbn [andb fst snd run]. unfold set_students. fields.
  now rewrite assign_status_twice.
Qed.

Lemma updateStudentStatus_last_wins_witness :
  the_student ums_seeded 1 = Some student1 /\
  Student.status student1 <> Expelled /\
  Academic_Leave <> Expelled /\
  run [UpdateStudentStatus 1 Academic_Leave; UpdateStudentStatus 1 Graduated] ums_seeded
  = ([Returned VVoid; Returned VVoid],
     state_after [UpdateStudentStatus 1 Graduated] ums_seeded).
Proof.
  split; [reflexivity|]. split; [discriminate|]. split; [discriminate|].
  apply (updateStudentStatus_last_wins ums_seeded 1 Academic_Leave Graduated student1
           eq_refl); discriminate.
Defined.


(** ** The driver's sequence *)

Lemma fresh_student_ungraded (u : UniversityManagementSystem) :
  consistent u -> referential_integrity u ->
  the_student u (nextStudentId u) = None ->
  getStudentGrades u (nextStudentId u) = [].
Proof.
  intros (_ & Hr & _) [_ Hg] Hfresh. unfold getStudentGrades.
  destruct (filter _ (grades u)) as [|g l] eqn:E; [reflexivity|].
  assert (Hin : In g (filter (fun g => StudentGrade.studentId g =? nextStudentId u)
                        (grades u))) by (rewrite E; now left).
  apply filter_In in Hin. destruct Hin as [Hin Hid]. apply Z.eqb_eq in Hid.
  destruct (Hr _ (Hg g Hin)) as (s & _ & Hs & _). simpl in Hs.
  rewrite Hid in Hs. congruence.
Qed.

(** X19: in a state a new object reached by calls whose arguments had no
    [id] of their own, the driver's sequence (add a course with at least one
    place, enroll a student of the course's faculty, both from arguments
    without [id], register the returned student for the returned course,
    grade the pair, compute the average) runs without a throw, and the
    average it computes is the value of the grade given. *)
Theorem enroll_register_grade_succeeds (cs : list Call) (course : CourseData.t)
    (student : StudentData.t) (grade : Grade) (now : Date) :
  Forall plain_call cs ->
  CourseData.id course = None ->
  StudentData.id student = None ->
  0 < CourseData.maxStudents course ->
  StudentData.faculty student = CourseData.faculty course ->
  exists s average,
    fst (enroll_register_grade course student grade now
           (state_after cs new_UniversityManagementSystem))
    = Returned (s, average) /\
    Student.id s = nextStudentId (state_after cs new_UniversityManagementSystem) /\
    Student.fullName s = StudentData.fullName student /\
    (average == inject_Z (Grade_value grade))%Q.
Proof.
  intros Hp Hcid Hsid Hmax Hfac.
  pose proof (consistent_after cs) as Hcons.
  pose proof (referential_integrity_after cs) as Hri.
  destruct (ids_consecutive_after cs Hp) as [Hs Hc].
  set (u := state_after cs new_UniversityManagementSystem) in *.
  pose proof (consecutive_student_fresh u (proj1 Hcons) Hs) as Hfs0.
  pose proof (consecutive_course_fresh u (proj1 Hcons) Hc) as Hfc0.
  pose proof (fresh_student_ungraded u Hcons Hri Hfs0) as Hfresh.
  destruct Hcons as (_ & _ & _ & Hcap).
  set (c := Course.mk (nextCourseId u) (CourseData.name course) (CourseData.type course)
              (CourseData.credits course) (CourseData.semester course)
              (CourseData.faculty course) (CourseData.maxStudents course)).
  set (s := Student.mk (nextStudentId u) (StudentData.fullName student)
              (StudentData.faculty student) (StudentData.year student)
              (StudentData.status student) (StudentData.enrollmentDate student)
              (StudentData.groupNumber student)).
  set (u2 := mkUMS (students u ++ [s]) (courses u ++ [c]) (grades u)
               (courseRegistrations u) (nextStudentId u + 1) (nextCourseId u + 1)).
  set (g := StudentGrade.mk (Student.id s) (Course.id c) grade now (Course.semester c)).
  assert (Hfs : the_student u2 (Student.id s) = Some s).
  { unfold the_student in *. unfold u2. fields.
    rewrite (find_app_none _ _ _ Hfs0). simpl. now rewrite Z.eqb_refl. }
  assert (Hfc : the_course u2 (Course.id c) = Some c).
  { unfold the_course in *. unfold u2. fields.
    rewrite (find_app_none _ _ _ Hfc0). simpl. now rewrite Z.eqb_refl. }
  assert (H1 : registerForCourse (Student.id s) (Course.id c) u2
               = (Returned tt, with_registration u2 (Student.id s) (Course.id c))).
  { apply (registerForCourse_accepts u2 _ _ s c Hfs Hfc); [|exact Hfac].
    change (registration_count u2 (Course.id c))
      with (registration_count u (nextCourseId u)).
    specialize (Hcap (nextCourseId u)). rewrite Hfc0 in Hcap. rewrite Hcap. exact Hmax. }
  assert (H2 : setGrade (Student.id s) (Course.id c) grade now
                 (with_registration u2 (Student.id s) (Course.id c))
               = (Returned tt,
                  with_grade (with_registration u2 (Student.id s) (Course.id c)) g)).
  { apply (setGrade_accepts _ _ _ grade now c); [|exact Hfc].
    unfold registered, with_registration. fields. apply in_or_app. right. now left. }
  assert (Hrun : enroll_register_grade course student grade now u
                 = bind (registerForCourse (Student.id s) (Course.id c))
                     (fun _ =>
                        bind (setGrade (Student.id s) (Course.id c) grade now)
                          (fun _ =>
                             bind (read (fun u0 => calculateAverageGrade u0 (Student.id s)))
                               (fun average => ret (s, average)))) u2).
  { unfold enroll_register_grade, addCourse, enrollStudent.
    rewrite Hcid, Hsid. reflexivity. }
  exists s, (calculateAverageGrade
               (with_grade (with_registration u2 (Student.id s) (Course.id c)) g)
               (Student.id s)).
  split; [|split; [reflexivity|split; [reflexivity|]]].
  - rewrite Hrun. unfold bind at 1. rewrite H1. unfold bind at 1. rewrite H2. reflexivity.
  - unfold calculateAverageGrade.
    assert (Hg : getStudentGrades
                   (with_grade (with_registration u2 (Student.id s) (Course.id c)) g)
                   (Student.id s) = [g]).
    { unfold getStudentGrades. fields. rewrite filter_app.
      change (filter _ (grades u2)) with (getStudentGrades u (nextStudentId u)).
      rewrite Hfresh. simpl. now rewrite Z.eqb_refl. }
    rewrite Hg. cbn [length Nat.eqb fold_left StudentGrade.grade g].
    destruct grade; vm_compute; reflexivity.
Qed.

Lemma enroll_register_grade_succeeds_witness :
  CourseData.id course1_data = None /\
  StudentData.id student1_data = None /\
  0 < CourseData.maxStudents course1_data /\
  StudentData.faculty student1_data = CourseData.faculty course1_data /\
  exists s average,
    fst (driver 1700000000000 1700000000001 new_UniversityManagementSystem)
    = Returned (s, average) /\
    (average == 5)%Q.
Proof.
  do 4 (split; [reflexivity|]).
  destruct (enroll_register_grade_succeeds [] course1_data student1_data Excellent
              1700000000001 (Forall_nil _) eq_refl eq_refl eq_refl eq_refl)
    as (s & average & H & _ & _ & Havg).
  exists s, average. split; [exact H|exact Havg].
Defined.

(** The driver itself, whatever the clock shows: no call throws, and the
    record and the average it logs are the enrolled student's and 5. *)
Example driver_result (t0 t1 : Date) :
  fst (driver t0 t1 new_UniversityManagementSystem)
  = Returned (Student.mk 1 "Іван Іванов" Computer_Science 1 Active t0 "CS-101", 5 # 1).
Proof. reflexivity. Qed.

(** ** The ids handed out when no argument has one of its own *)

(** X20: over every sequence of calls on a new object in which no argument
    of [enrollStudent] or [addCourse] has an [id] of its own, the ids that
    [enrollStudent] returns are 1, 2, 3, ... in the order of the calls, hence
    each larger than all before it and no two equal; the same for
    [addCourse]. *)
Theorem identities_count_up_without_own_ids (cs : list Call) :
  Forall plain_call cs ->
  (assigned_student_ids (results_of cs new_UniversityManagementSystem)
   = count_up 1 (length (assigned_student_ids
                           (results_of cs new_UniversityManagementSystem))) /\
   StronglySorted Z.lt
     (assigned_student_ids (results_of cs new_UniversityManagementSystem)) /\
   NoDup (assigned_student_ids (results_of cs new_UniversityManagementSystem))) /\
  (assigned_course_ids (results_of cs new_UniversityManagementSystem)
   = count_up 1 (length (assigned_course_ids
                           (results_of cs new_UniversityManagementSystem))) /\
   StronglySorted Z.lt
     (assigned_course_ids (results_of cs new_UniversityManagementSystem)) /\
   NoDup (assigned_course_ids (results_of cs new_UniversityManagementSystem))).
Proof.
  intros Hp. split.
  - pose proof (assigned_student_ids_count_up cs new_UniversityManagementSystem Hp) as H.
    change (nextStudentId new_UniversityManagementSystem) with 1 in H.
    split; [exact H|]. split; [|apply sorted_lt_NoDup]; rewrite H; apply count_up_sorted.
  - pose proof (assigned_course_ids_count_up cs new_UniversityManagementSystem Hp) as H.
    change (nextCourseId new_UniversityManagementSystem) with 1 in H.
    split; [exact H|]. split; [|apply sorted_lt_NoDup]; rewrite H; apply count_up_sorted.
Qed.

Lemma identities_count_up_without_own_ids_witness :
  Forall plain_call [AddCourse course1_data; EnrollStudent student1_data;
                     EnrollStudent student2_data] /\
  assigned_student_ids
    (results_of [AddCourse course1_data; EnrollStudent student1_data;
                 EnrollStudent student2_data] new_UniversityManagementSystem)
  = [1; 2].
Proof.
  assert (Hp : Forall plain_call [AddCourse course1_data; EnrollStudent student1_data;
                                  EnrollStudent student2_data])
    by (repeat constructor).
  split; [exact Hp|].
  destruct (identities_count_up_without_own_ids _ Hp) as [[H _] _]. exact H.
Defined.
